(** * Shared-profile benchmark harness: a shallow embedding

    This development embeds [profile_code_reuse_profile.py] and checks the
    statements of its specification against it.

    - Python values that cross the service boundary (responses, messages,
      tags) are a small JSON-like datatype [value]; the dynamic operations
      the script applies to them ([in], subscripting, [.get], iteration,
      slicing, truthiness) are written out with the errors Python raises.
    - Exceptions are the instances of Python's [Exception] class, which is
      what both [except Exception] clauses of the script name.
    - Effects (printing, sleeping, the two remote calls, the clock) are
      recorded in a chronological trace threaded through a state-and-error
      monad; the remote service is an oracle [Env]. *)

From Stdlib Require Import List String Ascii ZArith QArith Lia Bool Arith.
Import ListNotations.
Close Scope Q_scope.
Open Scope string_scope.
Open Scope list_scope.
Open Scope nat_scope.

(** ** Python values and exceptions *)

#[local] Set Warnings "-register-all".

Inductive value : Type :=
| VNone
| VBool (b : bool)
| VInt (z : Z)
| VStr (s : string)
| VList (items : list value)
| VDict (fields : list (string * value)).

(** Instances of [Exception] the script can meet. [BotoError] stands for
    whatever the service client raises (throttling, validation, timeout,
    ...), identified by its name. *)
Inductive exn : Type :=
| TypeError
| KeyError (key : string)
| AttributeError (attr : string)
| ZeroDivisionError
| Exception (msg : string)
| BotoError (name : string).

Inductive result (A : Type) : Type :=
| Ok (a : A)
| Raise (e : exn).
Arguments Ok {A} a.
Arguments Raise {A} e.

Definition rbind {A B} (r : result A) (k : A -> result B) : result B :=
  match r with
  | Ok a => k a
  | Raise e => Raise e
  end.

Notation "'let?' x ':=' e 'in' k" := (rbind e (fun x => k))
  (at level 10, x name, e at level 100, k at level 200).

(** Dictionaries are association lists in insertion order; the first binding
    of a key is the one that counts. *)
Fixpoint lookup (key : string) (fields : list (string * value)) : option value :=
  match fields with
  | [] => None
  | (k, v) :: rest => if String.eqb k key then Some v else lookup key rest
  end.

Definition is_str (key : string) (v : value) : bool :=
  match v with
  | VStr s => String.eqb s key
  | _ => false
  end.

(** [key in v] for a string [key]: membership of a key in a dict, of an
    element in a list, of a substring in a string; a [TypeError] on values
    that are not containers. *)
Definition py_in (key : string) (v : value) : result bool :=
  match v with
  | VDict fields =>
      Ok (match lookup key fields with Some _ => true | None => false end)
  | VList items => Ok (existsb (is_str key) items)
  | VStr s => Ok (match index 0 key s with Some _ => true | None => false end)
  | VNone | VBool _ | VInt _ => Raise TypeError
  end.

(** [v[key]] for a string [key]. *)
Definition py_getitem (v : value) (key : string) : result value :=
  match v with
  | VDict fields =>
      match lookup key fields with
      | Some x => Ok x
      | None => Raise (KeyError key)
      end
  | _ => Raise TypeError
  end.

(** [v.get(key, default)]: only dicts have the method. *)
Definition py_get (v : value) (key : string) (default : value) : result value :=
  match v with
  | VDict fields =>
      Ok (match lookup key fields with Some x => x | None => default end)
  | _ => Raise (AttributeError "get")
  end.

(** A Python [str] is a sequence of code points; a [VStr] holds its UTF-8
    encoding. A byte [10xxxxxx] continues the code point begun before it. *)
Definition is_continuation (c : ascii) : bool :=
  match c with
  | Ascii _ _ _ _ _ _ b6 b7 => b7 && negb b6
  end.

(** Number of code points, [len(s)]. *)
Fixpoint code_points (s : string) : nat :=
  match s with
  | EmptyString => 0
  | String c rest =>
      if is_continuation c then code_points rest else S (code_points rest)
  end.

(** The first [n] code points, [s[:n]]. *)
Fixpoint take_code_points (n : nat) (s : string) : string :=
  match s with
  | EmptyString => EmptyString
  | String c rest =>
      if is_continuation c then String c (take_code_points n rest)
      else
        match n with
        | 0 => EmptyString
        | S n' => String c (take_code_points n' rest)
        end
  end.

Definition continues (s : string) : bool :=
  match s with
  | EmptyString => false
  | String d _ => is_continuation d
  end.

(** The code points of a string, each as a string of its own. *)
Fixpoint code_point_strings (s : string) : list string :=
  match s with
  | EmptyString => []
  | String c rest =>
      let following := code_point_strings rest in
      if continues rest
      then match following with
           | first :: others => String c first :: others
           | [] => [String c EmptyString]
           end
      else String c EmptyString :: following
  end.

Definition chars (s : string) : list value := map VStr (code_point_strings s).

(** The sequence a [for] loop walks over. *)
Definition py_iter (v : value) : result (list value) :=
  match v with
  | VList items => Ok items
  | VDict fields => Ok (map (fun kv => VStr (fst kv)) fields)
  | VStr s => Ok (chars s)
  | VNone | VBool _ | VInt _ => Raise TypeError
  end.

(** [v[:50]]. Slicing a dict is an error too ([TypeError] before Python 3.12,
    [KeyError] from 3.12 on; the script treats both alike). *)
Definition py_slice50 (v : value) : result value :=
  match v with
  | VStr s => Ok (VStr (take_code_points 50 s))
  | VList items => Ok (VList (firstn 50 items))
  | _ => Raise TypeError
  end.

(** Truth value of an object, as tested by [if response:]. *)
Definition py_truthy (v : value) : bool :=
  match v with
  | VNone => false
  | VBool b => b
  | VInt z => negb (Z.eqb z 0)
  | VStr s => negb (String.eqb s "")
  | VList items => match items with [] => false | _ => true end
  | VDict fields => match fields with [] => false | _ => true end
  end.

(** ** Response extractor *)

Definition sentinel : value := VStr "No text response found".

(** The [for content in message['content']] loop: [Some v] when the loop
    returns [v], [None] when it runs to its end. *)
Fixpoint content_loop (contents : list value) : result (option value) :=
  match contents with
  | [] => Ok None
  | content :: rest =>
      let? has_text := py_in "text" content in
      if has_text
      then let? text := py_get content "text" (VStr "") in Ok (Some text)
      else content_loop rest
  end.

Definition parse_converse_response (response : value) : result value :=
  let? has_output := py_in "output" response in
  let? has_message :=
    (if has_output
     then let? output := py_getitem response "output" in py_in "message" output
     else Ok false) in
  if has_message then
    let? output := py_getitem response "output" in
    let? message := py_getitem output "message" in
    let? has_content := py_in "content" message in
    if has_content then
      let? content := py_getitem message "content" in
      let? contents := py_iter content in
      let? found := content_loop contents in
      match found with
      | Some text => Ok text
      | None => Ok sentinel
      end
    else Ok sentinel
  else Ok sentinel.

(** ** Effects: the trace, the service oracle and the monad *)

(** One constructor per [print] of the script; the payload is what the
    formatted line shows. Percentages and times are exact rationals (the
    rounding of [:.1f] is not modelled). *)
Inductive message : Type :=
| MsgStarting
| MsgCreatingShared (profile_name : string)
| MsgCreatedProfile (arn : value)
| MsgErrorCreating (e : exn)
| MsgResponseText (truncated : value)
| MsgErrorConverse (e : exn)
| MsgBanner
| MsgIteration (iteration : Z) (now : Q)
| MsgUsingProfile (model_id : value)
| MsgErrorIteration (i : nat) (e : exn)
| MsgProgress (i num_iterations : nat)
| MsgSuccessRate (successful_runs i : nat) (percent : Q)
| MsgSummaryTitle
| MsgTotalRuns (num_iterations : nat)
| MsgSuccessfulRuns (successful_runs : nat)
| MsgFailedRuns (failed_runs : nat)
| MsgFinalSuccessRate (percent : Q)
| MsgTotalTime (seconds : Q)
| MsgAverageTime (seconds : Q).

Inductive event : Type :=
| EvPrint (m : message)
| EvSleep (seconds : nat)
| EvCreateInferenceProfile (name description : string) (modelSource tags : value)
| EvConverse (modelId messages inferenceConfig : value).

(** What a remote call does: return a response or raise. *)
Inductive outcome : Type :=
| Returns (response : value)
| Raises (e : exn).

(** The world outside the script. The converse oracle is indexed by the
    number of converse calls made before, the clock by the number of events
    recorded so far. *)
Record Env : Type := {
  has_create_inference_profile : bool;
  api_create_inference_profile : string -> string -> value -> value -> outcome;
  api_converse : nat -> value -> value -> value -> outcome;
  uuid4_hex : string;
  clock : nat -> Q
}.

Definition trace : Type := list event.

Definition M (A : Type) : Type := trace -> result A * trace.

Definition ret {A} (a : A) : M A := fun t => (Ok a, t).

Definition raise {A} (e : exn) : M A := fun t => (Raise e, t).

Definition bind {A B} (m : M A) (k : A -> M B) : M B :=
  fun t =>
    match m t with
    | (Ok a, t') => k a t'
    | (Raise e, t') => (Raise e, t')
    end.

Notation "x <- m ;; k" := (bind m (fun x => k))
  (at level 61, m at next level, right associativity).
Notation "m ;; k" := (bind m (fun _ => k))
  (at level 61, right associativity).

(** [try: body  except Exception as e: handler e]. *)
Definition try_except {A} (body : M A) (handler : exn -> M A) : M A :=
  fun t =>
    match body t with
    | (Ok a, t') => (Ok a, t')
    | (Raise e, t') => handler e t'
    end.

Definition lift {A} (r : result A) : M A := fun t => (r, t).

Definition emit (e : event) : M unit := fun t => (Ok tt, t ++ [e]).

Definition print (m : message) : M unit := emit (EvPrint m).

Definition sleep (seconds : nat) : M unit := emit (EvSleep seconds).

Definition is_converse (e : event) : bool :=
  match e with
  | EvConverse _ _ _ => true
  | _ => false
  end.

Definition converse_calls (t : trace) : nat := List.length (filter is_converse t).

Definition of_outcome (o : outcome) : result value :=
  match o with
  | Returns v => Ok v
  | Raises e => Raise e
  end.

Section Script.

Variable env : Env.

Definition time_now : M Q := fun t => (Ok (clock env (List.length t)), t).

(** [bedrock.create_inference_profile(...)] *)
Definition bedrock_create_inference_profile
    (name description : string) (modelSource tags : value) : M value :=
  emit (EvCreateInferenceProfile name description modelSource tags) ;;
  lift (of_outcome (api_create_inference_profile env name description modelSource tags)).

(** [bedrock_runtime.converse(...)] *)
Definition bedrock_runtime_converse (modelId messages inferenceConfig : value) : M value :=
  fun t =>
    (of_outcome (api_converse env (converse_calls t) modelId messages inferenceConfig),
     t ++ [EvConverse modelId messages inferenceConfig]).

(** ** Profile provisioner *)

Definition create_inference_profile (profile_name model_arn : string) (tags : value)
  : M value :=
  try_except
    ((if negb (has_create_inference_profile env)
      then raise (Exception "create_inference_profile method not available. Please update boto3: pip install --upgrade boto3")
      else ret tt) ;;
     response <- bedrock_create_inference_profile profile_name "test"
                   (VDict [("copyFrom", VStr model_arn)]) tags ;;
     arn <- lift (py_get response "inferenceProfileArn" (VStr "Unknown")) ;;
     print (MsgCreatedProfile arn) ;;
     ret response)
    (fun e => print (MsgErrorCreating e) ;; raise e).

(** ** Conversation client *)

Definition inference_config : value := VDict [("maxTokens", VInt 300)].

Definition converse (model_id messages : value) : M value :=
  try_except
    (response <- bedrock_runtime_converse model_id messages inference_config ;;
     parsed <- lift (parse_converse_response response) ;;
     truncated <- lift (py_slice50 parsed) ;;
     print (MsgResponseText truncated) ;;
     ret response)
    (fun e => print (MsgErrorConverse e) ;; ret VNone).

Definition shared_profile_name : string :=
  String.append "cost_demo_shared_profile_" (substring 0 8 (uuid4_hex env)).

Definition shared_tags : value :=
  VList [VDict [("key", VStr "dept"); ("value", VStr "Dev")];
         VDict [("key", VStr "project"); ("value", VStr "cost-demo")]].

Definition base_model_arn : string :=
  "arn:aws:bedrock:us-east-1::foundation-model/amazon.nova-micro-v1:0".

Definition create_shared_profile : M value :=
  let profile_name := shared_profile_name in
  let tags := shared_tags in
  print (MsgCreatingShared profile_name) ;;
  profile_response <- create_inference_profile profile_name base_model_arn tags ;;
  lift (py_getitem profile_response "inferenceProfileArn").

(** ** Iteration runner *)

Definition prompts : list string :=
  ["Write a comprehensive technical documentation for deploying a multi-region, highly available microservices architecture on AWS.";
   "Analyze the current state of cloud computing in enterprise environments.";
   "Compare and contrast AWS container services: ECS, EKS, App Runner, Lambda, and Fargate.";
   "Design a real-time analytics platform for IoT devices at scale."].

(** [prompts[iteration % len(prompts)]]; Python's [%] with a positive
    divisor is [Z.modulo]. *)
Definition select_prompt (iteration : Z) : string :=
  nth (Z.to_nat (iteration mod Z.of_nat (List.length prompts))) prompts "".

Definition user_message (prompt : string) : value :=
  VList [VDict [("role", VStr "user");
                ("content", VList [VDict [("text", VStr prompt)]])]].

Definition run_test (iteration : Z) (model_id : value) : M value :=
  print MsgBanner ;;
  now <- time_now ;;
  print (MsgIteration iteration now) ;;
  print MsgBanner ;;
  print (MsgUsingProfile model_id) ;;
  let prompt := select_prompt iteration in
  let messages := user_message prompt in
  response <- converse model_id messages ;;
  sleep 1 ;;
  ret response.

(** ** Benchmark orchestrator *)

Record counters : Type := {
  successful_runs : nat;
  failed_runs : nat
}.

Definition count_success (c : counters) : counters :=
  {| successful_runs := successful_runs c + 1; failed_runs := failed_runs c |}.

Definition count_failure (c : counters) : counters :=
  {| successful_runs := successful_runs c; failed_runs := failed_runs c + 1 |}.

(** [a % b] and [a / b] on non-negative integers. *)
Definition py_mod (a b : nat) : result nat :=
  if b =? 0 then Raise ZeroDivisionError else Ok (a mod b).

Definition py_truediv (a b : nat) : result Q :=
  if b =? 0 then Raise ZeroDivisionError else Ok (Qmake (Z.of_nat a) (Pos.of_nat b)).

(** [a / b * 100] *)
Definition percent (a b : nat) : result Q :=
  let? ratio := py_truediv a b in Ok (ratio * 100)%Q.

Definition time_div (seconds : Q) (b : nat) : result Q :=
  if b =? 0 then Raise ZeroDivisionError else Ok (seconds / inject_Z (Z.of_nat b))%Q.

(** The script fixes [num_iterations = 50] and reports every 5 iterations;
    the loop is written over both numbers and [main] instantiates them. *)
Section Loop.

Variables num_iterations report_every : nat.
Variable shared_model_id : value.

(** The body of [for i in range(1, num_iterations + 1)]. *)
Definition loop_body (i : nat) (c : counters) : M counters :=
  c' <- try_except
          (response <- run_test (Z.of_nat i) shared_model_id ;;
           if py_truthy response
           then ret (count_success c)
           else ret (count_failure c))
          (fun e => print (MsgErrorIteration i e) ;; ret (count_failure c)) ;;
  remainder <- lift (py_mod i report_every) ;;
  (if remainder =? 0
   then print (MsgProgress i num_iterations) ;;
        rate <- lift (percent (successful_runs c') i) ;;
        print (MsgSuccessRate (successful_runs c') i rate)
   else ret tt) ;;
  (if i <? num_iterations then sleep 2 else ret tt) ;;
  ret c'.

Fixpoint for_range (indices : list nat) (c : counters) : M counters :=
  match indices with
  | [] => ret c
  | i :: rest => c' <- loop_body i c ;; for_range rest c'
  end.

End Loop.

Definition summary (num_iterations : nat) (c : counters) (total_time : Q) : M unit :=
  print MsgBanner ;;
  print MsgSummaryTitle ;;
  print MsgBanner ;;
  print (MsgTotalRuns num_iterations) ;;
  print (MsgSuccessfulRuns (successful_runs c)) ;;
  print (MsgFailedRuns (failed_runs c)) ;;
  rate <- lift (percent (successful_runs c) num_iterations) ;;
  print (MsgFinalSuccessRate rate) ;;
  print (MsgTotalTime total_time) ;;
  average <- lift (time_div total_time num_iterations) ;;
  print (MsgAverageTime average) ;;
  print MsgBanner.

Definition main_with (num_iterations report_every : nat) : M unit :=
  print MsgStarting ;;
  shared_model_id <- create_shared_profile ;;
  let c0 := {| successful_runs := 0; failed_runs := 0 |} in
  start_time <- time_now ;;
  c <- for_range num_iterations report_every shared_model_id
         (seq 1 num_iterations) c0 ;;
  end_time <- time_now ;;
  summary num_iterations c (end_time - start_time)%Q.

Definition main : M unit := main_with 50 5.

End Script.

(** * Specification-side definitions

    Closed forms of what each part of the script returns and records, the
    shapes and predicates the statements below are written with, and the
    concrete service behaviours they are tried on. *)

(** What [converse] returns and what it prints when [k] calls came before. *)
Definition converse_outcome (env : Env) (k : nat) (model_id messages : value)
  : value * message :=
  match api_converse env k model_id messages inference_config with
  | Raises e => (VNone, MsgErrorConverse e)
  | Returns response =>
      match parse_converse_response response with
      | Raise e => (VNone, MsgErrorConverse e)
      | Ok parsed =>
          match py_slice50 parsed with
          | Raise e => (VNone, MsgErrorConverse e)
          | Ok truncated => (response, MsgResponseText truncated)
          end
      end
  end.

Definition iteration_response (env : Env) (iteration : Z) (model_id : value) (t : trace)
  : value :=
  fst (converse_outcome env (converse_calls t) model_id
         (user_message (select_prompt iteration))).

Definition run_test_events (env : Env) (iteration : Z) (model_id : value) (t : trace)
  : list event :=
  [EvPrint MsgBanner;
   EvPrint (MsgIteration iteration (clock env (List.length (t ++ [EvPrint MsgBanner]))));
   EvPrint MsgBanner;
   EvPrint (MsgUsingProfile model_id);
   EvConverse model_id (user_message (select_prompt iteration)) inference_config;
   EvPrint (snd (converse_outcome env (converse_calls t) model_id
                   (user_message (select_prompt iteration))));
   EvSleep 1].

(** [if response: successful_runs += 1  else: failed_runs += 1] *)
Definition classify (response : value) (c : counters) : counters :=
  if py_truthy response then count_success c else count_failure c.

(** The progress report of iteration [i], printed from the counters [c] the
    iteration has just updated. *)
Definition report_events (n k i : nat) (c : counters) : list event :=
  if i mod k =? 0
  then [EvPrint (MsgProgress i n);
        EvPrint (MsgSuccessRate (successful_runs c) i
                   (Qmake (Z.of_nat (successful_runs c)) (Pos.of_nat i) * 100)%Q)]
  else [].

Definition pacing_events (n i : nat) : list event :=
  if i <? n then [EvSleep 2] else [].

Definition iteration_counters (env : Env) (model_id : value) (i : nat)
    (c : counters) (t : trace) : counters :=
  classify (iteration_response env (Z.of_nat i) model_id t) c.

Definition iteration_events (env : Env) (n k : nat) (model_id : value) (i : nat)
    (c : counters) (t : trace) : list event :=
  run_test_events env (Z.of_nat i) model_id t
  ++ report_events n k i (iteration_counters env model_id i c t)
  ++ pacing_events n i.

(** The one remote call [create_shared_profile] makes, and its outcome. *)
Definition provisioning_call (env : Env) : event :=
  EvCreateInferenceProfile (shared_profile_name env) "test"
    (VDict [("copyFrom", VStr base_model_arn)]) shared_tags.

Definition provisioning_outcome (env : Env) : outcome :=
  api_create_inference_profile env (shared_profile_name env) "test"
    (VDict [("copyFrom", VStr base_model_arn)]) shared_tags.

Definition summary_events (n : nat) (c : counters) (total_time : Q) : list event :=
  [EvPrint MsgBanner; EvPrint MsgSummaryTitle; EvPrint MsgBanner;
   EvPrint (MsgTotalRuns n);
   EvPrint (MsgSuccessfulRuns (successful_runs c));
   EvPrint (MsgFailedRuns (failed_runs c));
   EvPrint (MsgFinalSuccessRate
              (Qmake (Z.of_nat (successful_runs c)) (Pos.of_nat n) * 100)%Q);
   EvPrint (MsgTotalTime total_time);
   EvPrint (MsgAverageTime (total_time / inject_Z (Z.of_nat n))%Q);
   EvPrint MsgBanner].

Definition c0 : counters := {| successful_runs := 0; failed_runs := 0 |}.

Definition is_dict (v : value) : bool :=
  match v with
  | VDict _ => true
  | _ => false
  end.

(** A field may be absent; when present its value satisfies [ok]. *)
Definition field_ok (key : string) (ok : value -> bool)
    (fields : list (string * value)) : bool :=
  match lookup key fields with
  | Some v => ok v
  | None => true
  end.

Definition content_shape (content : value) : bool :=
  match content with
  | VList items => forallb is_dict items
  | _ => false
  end.

Definition message_shape (message : value) : bool :=
  match message with
  | VDict fields => field_ok "content" content_shape fields
  | _ => false
  end.

Definition output_shape (output : value) : bool :=
  match output with
  | VDict fields => field_ok "message" message_shape fields
  | _ => false
  end.

(** The response is a dict, and [output], [message] and [content], where
    present, are a dict, a dict and a list of dicts. *)
Definition expected_shape (response : value) : bool :=
  match response with
  | VDict fields => field_ok "output" output_shape fields
  | _ => false
  end.

(** [response['output']['message']['content']] when every level is there. *)
Definition content_of (response : value) : option (list value) :=
  match response with
  | VDict fields =>
      match lookup "output" fields with
      | Some (VDict output) =>
          match lookup "message" output with
          | Some (VDict message) =>
              match lookup "content" message with
              | Some (VList items) => Some items
              | _ => None
              end
          | _ => None
          end
      | _ => None
      end
  | _ => None
  end.

(** The [text] of the first entry that has one. *)
Fixpoint first_text (items : list value) : option value :=
  match items with
  | [] => None
  | VDict fields :: rest =>
      match lookup "text" fields with
      | Some text => Some text
      | None => first_text rest
      end
  | _ :: rest => first_text rest
  end.

Definition extracted_text (response : value) : value :=
  match content_of response with
  | Some items =>
      match first_text items with
      | Some text => text
      | None => sentinel
      end
  | None => sentinel
  end.

Definition response_hello : value :=
  VDict [("output",
          VDict [("message",
                  VDict [("role", VStr "assistant");
                         ("content", VList [VDict [("text", VStr "hello")]])])])].

Definition arn_demo : value :=
  VStr "arn:aws:bedrock:us-east-1:111122223333:application-inference-profile/demo".

Definition env_base : Env := {|
  has_create_inference_profile := true;
  api_create_inference_profile :=
    fun _ _ _ _ => Returns (VDict [("inferenceProfileArn", arn_demo)]);
  api_converse := fun _ _ _ _ => Returns response_hello;
  uuid4_hex := "0123456789abcdef0123456789abcdef";
  clock := fun n => inject_Z (Z.of_nat n)
|}.

(** The second converse call is throttled, the others answer. *)
Definition env_throttled : Env := {|
  has_create_inference_profile := true;
  api_create_inference_profile := api_create_inference_profile env_base;
  api_converse :=
    fun k _ _ _ =>
      if k =? 1 then Raises (BotoError "ThrottlingException")
      else Returns response_hello;
  uuid4_hex := uuid4_hex env_base;
  clock := clock env_base
|}.

(** The service rejects the profile. *)
Definition env_rejected : Env := {|
  has_create_inference_profile := true;
  api_create_inference_profile :=
    fun _ _ _ _ => Raises (BotoError "ServiceQuotaExceededException");
  api_converse := api_converse env_base;
  uuid4_hex := uuid4_hex env_base;
  clock := clock env_base
|}.

(** The service answers the creation without the ARN field. *)
Definition env_no_arn : Env := {|
  has_create_inference_profile := true;
  api_create_inference_profile :=
    fun _ _ _ _ => Returns (VDict [("status", VStr "ACTIVE")]);
  api_converse := api_converse env_base;
  uuid4_hex := uuid4_hex env_base;
  clock := clock env_base
|}.

(** Every converse call answers with metadata only, no [output]. *)
Definition env_no_text : Env := {|
  has_create_inference_profile := true;
  api_create_inference_profile := api_create_inference_profile env_base;
  api_converse :=
    fun _ _ _ _ => Returns (VDict [("ResponseMetadata", VDict [])]);
  uuid4_hex := uuid4_hex env_base;
  clock := clock env_base
|}.

Definition is_provisioning (e : event) : bool :=
  match e with
  | EvCreateInferenceProfile _ _ _ _ => true
  | _ => false
  end.

Definition provisioning_calls (t : trace) : nat :=
  List.length (filter is_provisioning t).

(** The lines of the final "TEST SUMMARY" block. *)
Definition is_summary_message (m : message) : bool :=
  match m with
  | MsgSummaryTitle | MsgTotalRuns _ | MsgSuccessfulRuns _ | MsgFailedRuns _
  | MsgFinalSuccessRate _ | MsgTotalTime _ | MsgAverageTime _ => true
  | _ => false
  end.

Definition is_summary_event (e : event) : bool :=
  match e with
  | EvPrint m => is_summary_message m
  | _ => false
  end.

(** A run summary with the given counts was printed. *)
Definition summary_printed (t : trace) (successes failures : nat) : Prop :=
  In (EvPrint (MsgSuccessfulRuns successes)) t /\
  In (EvPrint (MsgFailedRuns failures)) t.

Definition abort_events (env : Env) (e : exn) : list event :=
  [EvPrint MsgStarting;
   EvPrint (MsgCreatingShared (shared_profile_name env));
   provisioning_call env;
   EvPrint (MsgErrorCreating e)].

Definition missing_arn_events (env : Env) : list event :=
  [EvPrint MsgStarting;
   EvPrint (MsgCreatingShared (shared_profile_name env));
   provisioning_call env;
   EvPrint (MsgCreatedProfile (VStr "Unknown"))].

(** [successful_runs / i * 100] *)
Definition rate_percent (successes i : nat) : Q :=
  (Qmake (Z.of_nat successes) (Pos.of_nat i) * 100)%Q.

Definition is_sleep (e : event) : bool :=
  match e with
  | EvSleep _ => true
  | _ => false
  end.

(** ** Further observations on a trace *)

(** Seconds of sleep requested along a trace. *)
Fixpoint slept (t : trace) : nat :=
  match t with
  | [] => 0
  | EvSleep seconds :: rest => seconds + slept rest
  | _ :: rest => slept rest
  end.

Definition is_progress (e : event) : bool :=
  match e with
  | EvPrint (MsgProgress _ _) => true
  | _ => false
  end.

Definition is_error_iteration (e : event) : bool :=
  match e with
  | EvPrint (MsgErrorIteration _ _) => true
  | _ => false
  end.

(** The converse request of iteration [i]. *)
Definition converse_request (model_id : value) (i : nat) : event :=
  EvConverse model_id (user_message (select_prompt (Z.of_nat i))) inference_config.

(** [b] is what some run of the body of iteration [i] records. *)
Definition iteration_block (env : Env) (n k : nat) (model_id : value)
    (i : nat) (b : list event) : Prop :=
  exists c t, b = iteration_events env n k model_id i c t.

(** A content entry that is a dict without a [text] key. *)
Definition without_text (v : value) : bool :=
  match v with
  | VDict fields =>
      match lookup "text" fields with
      | Some _ => false
      | None => true
      end
  | _ => false
  end.

(** The error raised when the client has no [create_inference_profile]. *)
Definition method_unavailable : exn :=
  Exception "create_inference_profile method not available. Please update boto3: pip install --upgrade boto3".

(** The response carries a text that is a number. *)
Definition response_numeric_text : value :=
  VDict [("output",
          VDict [("message",
                  VDict [("content", VList [VDict [("text", VInt 5)]])])])].

Definition env_numeric_text : Env := {|
  has_create_inference_profile := true;
  api_create_inference_profile := api_create_inference_profile env_base;
  api_converse := fun _ _ _ _ => Returns response_numeric_text;
  uuid4_hex := uuid4_hex env_base;
  clock := clock env_base
|}.

(** The installed client has no [create_inference_profile] method. *)
Definition env_no_method : Env := {|
  has_create_inference_profile := false;
  api_create_inference_profile := api_create_inference_profile env_base;
  api_converse := api_converse env_base;
  uuid4_hex := uuid4_hex env_base;
  clock := clock env_base
|}.

(** The creation call returns [None]. *)
Definition env_none_profile : Env := {|
  has_create_inference_profile := true;
  api_create_inference_profile := fun _ _ _ _ => Returns VNone;
  api_converse := api_converse env_base;
  uuid4_hex := uuid4_hex env_base;
  clock := clock env_base
|}.

(** Every converse call times out. *)
Definition env_all_failing : Env := {|
  has_create_inference_profile := true;
  api_create_inference_profile := api_create_inference_profile env_base;
  api_converse := fun _ _ _ _ => Raises (BotoError "ReadTimeoutError");
  uuid4_hex := uuid4_hex env_base;
  clock := clock env_base
|}.

(** A response whose text has accented letters. *)
Definition response_accented : value :=
  VDict [("output",
          VDict [("message",
                  VDict [("content", VList [VDict [("text", VStr "déjà vu")]])])])].

Definition env_accented : Env := {|
  has_create_inference_profile := true;
  api_create_inference_profile := api_create_inference_profile env_base;
  api_converse := fun _ _ _ _ => Returns response_accented;
  uuid4_hex := uuid4_hex env_base;
  clock := clock env_base
|}.

(** ** The extractor, as a search *)

(** Outcome of searching a value for a key. *)
Inductive search : Type :=
| Absent
| Present (x : value)
| Unsearchable (e : exn).

(** Searching [v] for [key]: a dict has the key or not; a string or a list
    that does not contain [key] has not; a string or a list that contains it
    passes the membership test, and what is done with it next raises [e];
    on [None], a boolean or a number the membership test raises
    [TypeError]. *)
Definition search_key (e : exn) (key : string) (v : value) : search :=
  match v with
  | VDict fields =>
      match lookup key fields with
      | Some x => Present x
      | None => Absent
      end
  | VList items => if existsb (is_str key) items then Unsearchable e else Absent
  | VStr s =>
      match index 0 key s with
      | Some _ => Unsearchable e
      | None => Absent
      end
  | VNone | VBool _ | VInt _ => Unsearchable TypeError
  end.

(** The content value: [output], then [message], then [content]. *)
Definition search_content (response : value) : search :=
  match search_key TypeError "output" response with
  | Present output =>
      match search_key TypeError "message" output with
      | Present message => search_key TypeError "content" message
      | other => other
      end
  | other => other
  end.

(** The first entry in which the search for [text] does not come out
    absent. *)
Fixpoint search_text (items : list value) : search :=
  match items with
  | [] => Absent
  | item :: rest =>
      match search_key (AttributeError "get") "text" item with
      | Absent => search_text rest
      | found => found
      end
  end.

(** What the extractor does on any input, said with searches. *)
Definition extractor_outcome (response : value) : result value :=
  match search_content response with
  | Unsearchable e => Raise e
  | Absent => Ok sentinel
  | Present content =>
      match py_iter content with
      | Raise e => Raise e
      | Ok items =>
          match search_text items with
          | Unsearchable e => Raise e
          | Absent => Ok sentinel
          | Present text => Ok text
          end
      end
  end.

(** * Properties *)

(** ** The monad and the trace *)

Lemma bind_ok {A B} (m : M A) (k : A -> M B) t a t' :
  m t = (Ok a, t') -> bind m k t = k a t'.
Proof. intros H. unfold bind. rewrite H. reflexivity. Qed.

Lemma bind_raise {A B} (m : M A) (k : A -> M B) t e t' :
  m t = (Raise e, t') -> bind m k t = (Raise e, t').
Proof. intros H. unfold bind. rewrite H. reflexivity. Qed.

Lemma converse_calls_app (t u : trace) :
  converse_calls (t ++ u) = converse_calls t + converse_calls u.
Proof. unfold converse_calls. rewrite filter_app, length_app. reflexivity. Qed.

Lemma converse_calls_print (t : trace) (m : message) :
  converse_calls (t ++ [EvPrint m]) = converse_calls t.
Proof. rewrite converse_calls_app. unfold converse_calls. simpl. lia. Qed.

Ltac run_script :=
  unfold bind, try_except, print, sleep, emit, lift, ret, raise, time_now;
  cbv beta iota.

Ltac flatten_trace := repeat rewrite <- app_assoc; simpl app.

(** ** Conversation client *)

Lemma converse_run env model_id messages t :
  converse env model_id messages t =
  (Ok (fst (converse_outcome env (converse_calls t) model_id messages)),
   t ++ [EvConverse model_id messages inference_config;
         EvPrint (snd (converse_outcome env (converse_calls t) model_id messages))]).
Proof.
  unfold converse, converse_outcome, bedrock_runtime_converse. run_script.
  destruct (api_converse env (converse_calls t) model_id messages inference_config)
    as [response | e]; simpl of_outcome; cbv beta iota.
  - destruct (parse_converse_response response) as [parsed | e]; cbv beta iota.
    + destruct (py_slice50 parsed) as [truncated | e]; cbv beta iota;
        flatten_trace; reflexivity.
    + flatten_trace; reflexivity.
  - flatten_trace; reflexivity.
Qed.

(** ** Iteration runner *)

Lemma run_test_run env iteration model_id t :
  run_test env iteration model_id t =
  (Ok (iteration_response env iteration model_id t),
   t ++ run_test_events env iteration model_id t).
Proof.
  unfold run_test, run_test_events, iteration_response. run_script.
  rewrite converse_run. cbv beta iota.
  repeat rewrite converse_calls_print.
  flatten_trace. reflexivity.
Qed.

(** ** Benchmark loop *)

Lemma loop_body_run env n k model_id i c t :
  0 < k -> 0 < i ->
  loop_body env n k model_id i c t =
  (Ok (iteration_counters env model_id i c t),
   t ++ iteration_events env n k model_id i c t).
Proof.
  intros Hk Hi.
  unfold loop_body, iteration_events, iteration_counters, classify,
    report_events, pacing_events.
  run_script. rewrite run_test_run.
  destruct (py_truthy (iteration_response env (Z.of_nat i) model_id t));
    cbv beta iota.
  all: unfold py_mod, percent, py_truediv, rbind.
  all: destruct (Nat.eqb_spec k 0) as [-> | _]; [lia |].
  all: destruct (Nat.eqb_spec i 0) as [-> | _]; [lia |].
  all: destruct (i mod k =? 0); cbv beta iota.
  all: destruct (i <? n); cbv beta iota.
  all: flatten_trace; rewrite ?app_nil_r; reflexivity.
Qed.

Lemma for_range_app env n k model_id l1 l2 c t :
  for_range env n k model_id (l1 ++ l2) c t =
  match for_range env n k model_id l1 c t with
  | (Ok c', t') => for_range env n k model_id l2 c' t'
  | (Raise e, t') => (Raise e, t')
  end.
Proof.
  revert c t. induction l1 as [| i l1 IH]; intros c t; simpl.
  - reflexivity.
  - unfold bind. destruct (loop_body env n k model_id i c t) as [[c' | e] t'].
    + apply IH.
    + reflexivity.
Qed.

Lemma for_range_cons env n k model_id i rest c t :
  0 < k -> 0 < i ->
  for_range env n k model_id (i :: rest) c t =
  for_range env n k model_id rest
    (iteration_counters env model_id i c t)
    (t ++ iteration_events env n k model_id i c t).
Proof.
  intros Hk Hi. simpl. apply bind_ok. apply loop_body_run; assumption.
Qed.

Lemma converse_calls_iteration env n k model_id i c t :
  converse_calls (iteration_events env n k model_id i c t) = 1.
Proof.
  unfold iteration_events, report_events, pacing_events.
  rewrite !converse_calls_app.
  destruct (i mod k =? 0); destruct (i <? n); reflexivity.
Qed.

Lemma classify_sum response c :
  successful_runs (classify response c) + failed_runs (classify response c) =
  successful_runs c + failed_runs c + 1.
Proof. unfold classify. destruct (py_truthy response); simpl; lia. Qed.

(** The loop never raises, calls the service once per index and counts each
    index once. *)
Lemma for_range_run env n k model_id l :
  0 < k -> Forall (fun i => 0 < i) l ->
  forall c t, exists c' evs,
    for_range env n k model_id l c t = (Ok c', t ++ evs) /\
    converse_calls evs = List.length l /\
    successful_runs c' + failed_runs c' =
      successful_runs c + failed_runs c + List.length l.
Proof.
  intros Hk Hl. induction Hl as [| i l Hi Hl IH]; intros c t.
  - exists c, []. simpl. rewrite app_nil_r. repeat split; lia.
  - rewrite for_range_cons by assumption.
    destruct (IH (iteration_counters env model_id i c t)
                 (t ++ iteration_events env n k model_id i c t))
      as (c' & evs & Hrun & Hcalls & Hsum).
    exists c', (iteration_events env n k model_id i c t ++ evs).
    rewrite Hrun, app_assoc. split; [reflexivity |]. split.
    + rewrite converse_calls_app, converse_calls_iteration, Hcalls. reflexivity.
    + rewrite Hsum. unfold iteration_counters. rewrite classify_sum. simpl. lia.
Qed.

Lemma seq_positive a len : 0 < a -> Forall (fun i => 0 < i) (seq a len).
Proof.
  intros Ha. apply Forall_forall. intros i Hi. apply in_seq in Hi. lia.
Qed.

(** ** Provisioning *)

Lemma create_shared_profile_rejected env e t :
  has_create_inference_profile env = true ->
  provisioning_outcome env = Raises e ->
  create_shared_profile env t =
  (Raise e, t ++ [EvPrint (MsgCreatingShared (shared_profile_name env));
                  provisioning_call env;
                  EvPrint (MsgErrorCreating e)]).
Proof.
  unfold provisioning_outcome, provisioning_call. intros Hhas Hout.
  unfold create_shared_profile, create_inference_profile,
    bedrock_create_inference_profile.
  rewrite Hhas. run_script. rewrite Hout. simpl. flatten_trace. reflexivity.
Qed.

Lemma create_shared_profile_returned env fields t :
  has_create_inference_profile env = true ->
  provisioning_outcome env = Returns (VDict fields) ->
  create_shared_profile env t =
  (match lookup "inferenceProfileArn" fields with
   | Some arn => Ok arn
   | None => Raise (KeyError "inferenceProfileArn")
   end,
   t ++ [EvPrint (MsgCreatingShared (shared_profile_name env));
         provisioning_call env;
         EvPrint (MsgCreatedProfile
                    (match lookup "inferenceProfileArn" fields with
                     | Some arn => arn
                     | None => VStr "Unknown"
                     end))]).
Proof.
  unfold provisioning_outcome, provisioning_call. intros Hhas Hout.
  unfold create_shared_profile, create_inference_profile,
    bedrock_create_inference_profile.
  rewrite Hhas. run_script. rewrite Hout. simpl.
  destruct (lookup "inferenceProfileArn" fields); flatten_trace; reflexivity.
Qed.

Lemma main_with_abort env n k e t t' :
  create_shared_profile env (t ++ [EvPrint MsgStarting]) = (Raise e, t') ->
  main_with env n k t = (Raise e, t').
Proof.
  intros H. unfold main_with. run_script. rewrite H. reflexivity.
Qed.

Lemma summary_run n c total_time t :
  0 < n ->
  summary n c total_time t = (Ok tt, t ++ summary_events n c total_time).
Proof.
  intros Hn. unfold summary, summary_events, percent, py_truediv, time_div, rbind.
  run_script.
  destruct (Nat.eqb_spec n 0) as [-> | _]; [lia |].
  flatten_trace. reflexivity.
Qed.

Lemma main_with_run env n k model_id c t t1 t2 :
  0 < n ->
  create_shared_profile env (t ++ [EvPrint MsgStarting]) = (Ok model_id, t1) ->
  for_range env n k model_id (seq 1 n) c0 t1 = (Ok c, t2) ->
  main_with env n k t =
  (Ok tt,
   t2 ++ summary_events n c
           (clock env (List.length t2) - clock env (List.length t1))%Q).
Proof.
  intros Hn Hcreate Hloop. unfold main_with. run_script.
  rewrite Hcreate. fold c0. rewrite Hloop.
  apply summary_run. assumption.
Qed.

(** ** Response extractor *)

Lemma content_loop_dicts items :
  forallb is_dict items = true ->
  content_loop items = Ok (first_text items).
Proof.
  induction items as [| item rest IH]; intros Hall.
  - reflexivity.
  - apply andb_prop in Hall. destruct Hall as [Hitem Hrest].
    destruct item; try discriminate.
    cbn [content_loop first_text py_in py_get rbind].
    destruct (lookup "text" fields); cbn [rbind]; auto.
Qed.

(** C4, as stated, fails: a response whose [output] field is present but is
    [None] makes the extractor raise. *)
Lemma parse_raises_on_malformed_output :
  parse_converse_response (VDict [("output", VNone)]) = Raise TypeError.
Proof. reflexivity. Qed.

(** On a response of the expected shape the extractor returns the text of
    the first content entry that has one, and the sentinel when a field is
    absent at any level or no entry has a text. *)
Lemma parse_total_on_expected_shape (response : value) :
  expected_shape response = true ->
  parse_converse_response response = Ok (extracted_text response) /\
  (content_of response = None -> extracted_text response = sentinel) /\
  sentinel = VStr "No text response found".
Proof.
  intros Hshape. split; [| split; [| reflexivity]].
  - unfold parse_converse_response, extracted_text.
    destruct response as [| | | | | fields]; try discriminate.
    unfold expected_shape, field_ok in Hshape.
    cbn [py_in py_getitem rbind content_of].
    destruct (lookup "output" fields) as [output |]; cbn [rbind]; [| reflexivity].
    destruct output as [| | | | | ofields]; try discriminate.
    unfold output_shape, field_ok in Hshape.
    cbn [py_in py_getitem rbind].
    destruct (lookup "message" ofields) as [message |]; cbn [rbind]; [| reflexivity].
    destruct message as [| | | | | mfields]; try discriminate.
    unfold message_shape, field_ok in Hshape.
    cbn [py_in py_getitem rbind].
    destruct (lookup "content" mfields) as [content |]; cbn [rbind]; [| reflexivity].
    destruct content as [| | | | items |]; try discriminate.
    unfold content_shape in Hshape.
    cbn [py_iter rbind]. rewrite content_loop_dicts by assumption.
    cbn [rbind]. destruct (first_text items); reflexivity.
  - intros Hnone. unfold extracted_text. rewrite Hnone. reflexivity.
Qed.

Lemma membership_then_subscript (key : string) (v : value) :
  match search_key TypeError key v with
  | Present x => py_in key v = Ok true /\ py_getitem v key = Ok x
  | Absent => py_in key v = Ok false
  | Unsearchable e =>
      e = TypeError /\
      (py_in key v = Raise TypeError \/
       (py_in key v = Ok true /\ py_getitem v key = Raise TypeError))
  end.
Proof.
  destruct v as [| b | z | s | items | fields]; cbn [search_key py_in py_getitem].
  - auto.
  - auto.
  - auto.
  - destruct (index 0 key s); auto.
  - destruct (existsb (is_str key) items); auto.
  - destruct (lookup key fields); auto.
Qed.

Lemma content_loop_search (items : list value) :
  content_loop items =
  match search_text items with
  | Absent => Ok None
  | Present text => Ok (Some text)
  | Unsearchable e => Raise e
  end.
Proof.
  induction items as [| item rest IH]; [reflexivity |].
  cbn [content_loop search_text].
  destruct item as [| b | z | s | entries | fields];
    cbn [search_key py_in py_get rbind]; try reflexivity.
  - destruct (index 0 "text" s); cbn [rbind]; [reflexivity | exact IH].
  - destruct (existsb (is_str "text") entries); cbn [rbind];
      [reflexivity | exact IH].
  - destruct (lookup "text" fields); cbn [rbind]; [reflexivity | exact IH].
Qed.

Lemma parse_as_search (response : value) :
  parse_converse_response response = extractor_outcome response.
Proof.
  unfold parse_converse_response, extractor_outcome, search_content.
  pose proof (membership_then_subscript "output" response) as Houtput.
  destruct (search_key TypeError "output" response) as [| output | e].
  - rewrite Houtput. reflexivity.
  - destruct Houtput as [Hin Hget]. rewrite Hin. cbn [rbind]. rewrite Hget.
    cbn [rbind].
    pose proof (membership_then_subscript "message" output) as Hmessage.
    destruct (search_key TypeError "message" output) as [| message | e].
    + rewrite Hmessage. reflexivity.
    + destruct Hmessage as [Hin' Hget']. rewrite Hin'. cbn [rbind].
      rewrite Hget'. cbn [rbind].
      pose proof (membership_then_subscript "content" message) as Hcontent.
      destruct (search_key TypeError "content" message) as [| content | e].
      * rewrite Hcontent. reflexivity.
      * destruct Hcontent as [Hin'' Hget'']. rewrite Hin''. cbn [rbind].
        rewrite Hget''. cbn [rbind].
        destruct (py_iter content) as [items | e]; cbn [rbind]; [| reflexivity].
        rewrite content_loop_search.
        destruct (search_text items); reflexivity.
      * destruct Hcontent as [-> [Hin'' | [Hin'' Hget'']]]; rewrite Hin'';
          cbn [rbind]; [reflexivity |].
        rewrite Hget''. reflexivity.
    + destruct Hmessage as [-> [Hin' | [Hin' Hget']]]; rewrite Hin';
        cbn [rbind]; [reflexivity |].
      rewrite Hget'. reflexivity.
  - destruct Houtput as [-> [Hin | [Hin Hget]]]; rewrite Hin;
      cbn [rbind]; [reflexivity |].
    rewrite Hget. reflexivity.
Qed.

Lemma search_key_error (e e' : exn) (key : string) (v : value) :
  search_key e key v = Unsearchable e' -> e' = TypeError \/ e' = e.
Proof.
  destruct v as [| b | z | s | items | fields]; cbn [search_key].
  - intros [= <-]. auto.
  - intros [= <-]. auto.
  - intros [= <-]. auto.
  - destruct (index 0 key s); [intros [= <-]; auto | discriminate].
  - destruct (existsb (is_str key) items); [intros [= <-]; auto | discriminate].
  - destruct (lookup key fields); discriminate.
Qed.

Lemma search_text_error (items : list value) (e : exn) :
  search_text items = Unsearchable e ->
  e = TypeError \/ e = AttributeError "get".
Proof.
  induction items as [| item rest IH]; [discriminate |].
  cbn [search_text].
  destruct (search_key (AttributeError "get") "text" item) as [| x | e'] eqn:Hitem.
  - exact IH.
  - discriminate.
  - intros [= <-]. exact (search_key_error _ _ _ _ Hitem).
Qed.

Lemma search_text_found (items : list value) (text : value) :
  search_text items = Present text ->
  exists before entry after,
    items = before ++ VDict entry :: after /\
    lookup "text" entry = Some text /\
    Forall (fun item => search_key (AttributeError "get") "text" item = Absent)
      before.
Proof.
  induction items as [| item rest IH]; [discriminate |].
  cbn [search_text].
  destruct (search_key (AttributeError "get") "text" item) as [| x | e'] eqn:Hitem.
  - intros Hrest. destruct (IH Hrest) as (before & entry & after & -> & Htext & Hall).
    exists (item :: before), entry, after. repeat split; auto.
  - intros [= ->].
    destruct item as [| b | z | s | entries | fields]; cbn [search_key] in Hitem;
      try discriminate.
    + destruct (index 0 "text" s); discriminate.
    + destruct (existsb (is_str "text") entries); discriminate.
    + exists [], fields, rest. split; [reflexivity |]. split; [| constructor].
      destruct (lookup "text" fields); [injection Hitem as -> | discriminate].
      reflexivity.
  - discriminate.
Qed.

(** C4 (amended). On every input the extractor does what the search says:
    it returns the sentinel ["No text response found"] when [output],
    [message], [content] or a [text] entry is absent, returns the text of the
    first content entry that has one, and raises only where a value it has to
    search does not allow it -- [TypeError] when that value is [None], a
    boolean or a number, when it is a string or a list that contains the key,
    or when the content cannot be iterated; [AttributeError] when a content
    entry is a string or a list that contains ["text"]. It raises nothing
    else, and never raises on a response of the expected shape. *)
Theorem parse_converse_response_outcomes :
  (forall response,
      parse_converse_response response = extractor_outcome response) /\
  (forall response e,
      parse_converse_response response = Raise e ->
      e = TypeError \/ e = AttributeError "get") /\
  (forall response v,
      parse_converse_response response = Ok v ->
      v = sentinel \/
      exists content items before entry after,
        search_content response = Present content /\
        py_iter content = Ok items /\
        items = before ++ VDict entry :: after /\
        lookup "text" entry = Some v /\
        Forall (fun item =>
                  search_key (AttributeError "get") "text" item = Absent)
          before) /\
  (forall response,
      expected_shape response = true ->
      parse_converse_response response = Ok (extracted_text response)) /\
  sentinel = VStr "No text response found".
Proof.
  split; [exact parse_as_search |].
  split; [| split; [| split; [| reflexivity]]].
  - intros response e. rewrite parse_as_search. unfold extractor_outcome.
    unfold search_content.
    destruct (search_key TypeError "output" response) as [| output | e1] eqn:H1.
    + discriminate.
    + destruct (search_key TypeError "message" output) as [| message | e2] eqn:H2.
      * discriminate.
      * destruct (search_key TypeError "content" message)
          as [| content | e3] eqn:H3.
        -- discriminate.
        -- destruct content as [| b | z | s | items | fields]; cbn [py_iter].
           ++ intros [= <-]. auto.
           ++ intros [= <-]. auto.
           ++ intros [= <-]. auto.
           ++ destruct (search_text (chars s)) eqn:Hs; try discriminate.
              intros [= <-]. exact (search_text_error _ _ Hs).
           ++ destruct (search_text items) eqn:Hs; try discriminate.
              intros [= <-]. exact (search_text_error _ _ Hs).
           ++ destruct (search_text (map (fun kv => VStr (fst kv)) fields))
                eqn:Hs; try discriminate.
              intros [= <-]. exact (search_text_error _ _ Hs).
        -- intros [= <-]. destruct (search_key_error _ _ _ _ H3); auto.
      * intros [= <-]. destruct (search_key_error _ _ _ _ H2); auto.
    + intros [= <-]. destruct (search_key_error _ _ _ _ H1); auto.
  - intros response v. rewrite parse_as_search. unfold extractor_outcome.
    destruct (search_content response) as [| content | e]; try discriminate.
    + intros [= <-]. auto.
    + destruct (py_iter content) as [items | e] eqn:Hiter; try discriminate.
      destruct (search_text items) as [| text | e] eqn:Htext; try discriminate.
      * intros [= <-]. auto.
      * intros [= <-]. right.
        destruct (search_text_found items text Htext)
          as (before & entry & after & Hitems & Hlookup & Hall).
        exists content, items, before, entry, after. auto.
  - intros response Hshape.
    exact (proj1 (parse_total_on_expected_shape response Hshape)).
Qed.

Lemma parse_converse_response_outcomes_witness :
  expected_shape response_hello = true /\
  parse_converse_response response_hello = Ok (VStr "hello") /\
  parse_converse_response (VStr "abc") = Ok sentinel /\
  parse_converse_response (VDict [("output", VStr "x")]) = Ok sentinel /\
  parse_converse_response (VDict [("output", VStr "a message")]) = Raise TypeError.
Proof.
  destruct parse_converse_response_outcomes as (Hsearch & _ & _ & Hshape & _).
  split; [reflexivity |].
  split; [exact (Hshape response_hello eq_refl) |].
  rewrite !Hsearch. repeat split; reflexivity.
Defined.

(** ** Prompt selection *)

(** C6. The prompt is [prompts[index mod len(prompts)]] over the fixed list
    of four prompts, a function of the index alone; it is periodic with
    period [len(prompts)], and so is the message [run_test] builds. *)
Theorem select_prompt_periodic (index : Z) :
  select_prompt index =
    nth (Z.to_nat (index mod Z.of_nat (List.length prompts))) prompts "" /\
  select_prompt (index + Z.of_nat (List.length prompts)) = select_prompt index /\
  user_message (select_prompt (index + Z.of_nat (List.length prompts))) =
    user_message (select_prompt index) /\
  In (select_prompt index) prompts.
Proof.
  assert (Hperiod : select_prompt (index + Z.of_nat (List.length prompts))
                    = select_prompt index).
  { unfold select_prompt.
    replace (index + Z.of_nat (List.length prompts))%Z
      with (index + 1 * Z.of_nat (List.length prompts))%Z by lia.
    rewrite Z_mod_plus_full. reflexivity. }
  split; [reflexivity |]. split; [exact Hperiod |]. split.
  - rewrite Hperiod. reflexivity.
  - unfold select_prompt. apply nth_In.
    assert (0 <= index mod Z.of_nat (List.length prompts)
            < Z.of_nat (List.length prompts))%Z.
    { apply Z.mod_pos_bound. simpl. lia. }
    lia.
Qed.

(** ** Failure isolation *)

(** C1. Whatever the remote converse call raises, [converse] catches it,
    prints it and returns [None]: [converse] never raises. An iteration whose
    call raised is counted as a failure and the loop goes on with the next
    index; over [range(1, n + 1)] the loop never raises and makes exactly [n]
    converse calls. *)
Theorem converse_errors_never_abort_loop (env : Env) (n k : nat) :
  0 < k ->
  (forall model_id messages t e,
      api_converse env (converse_calls t) model_id messages inference_config
        = Raises e ->
      converse env model_id messages t =
      (Ok VNone,
       t ++ [EvConverse model_id messages inference_config;
             EvPrint (MsgErrorConverse e)])) /\
  (forall model_id messages t,
      exists response t', converse env model_id messages t = (Ok response, t')) /\
  (forall model_id i rest c t e,
      0 < i ->
      api_converse env (converse_calls t) model_id
        (user_message (select_prompt (Z.of_nat i))) inference_config = Raises e ->
      loop_body env n k model_id i c t =
        (Ok (count_failure c), t ++ iteration_events env n k model_id i c t) /\
      for_range env n k model_id (i :: rest) c t =
        for_range env n k model_id rest (count_failure c)
          (t ++ iteration_events env n k model_id i c t)) /\
  (forall model_id c t,
      exists c' evs,
        for_range env n k model_id (seq 1 n) c t = (Ok c', t ++ evs) /\
        converse_calls evs = n).
Proof.
  intros Hk. split; [| split; [| split]].
  - intros model_id messages t e Hraise.
    rewrite converse_run. unfold converse_outcome. rewrite Hraise. reflexivity.
  - intros model_id messages t. rewrite converse_run. eauto.
  - intros model_id i rest c t e Hi Hraise.
    assert (Hcount : iteration_counters env model_id i c t = count_failure c).
    { unfold iteration_counters, iteration_response, converse_outcome.
      rewrite Hraise. reflexivity. }
    split.
    + rewrite loop_body_run by assumption. rewrite Hcount. reflexivity.
    + rewrite for_range_cons by assumption. rewrite Hcount. reflexivity.
  - intros model_id c t.
    destruct (for_range_run env n k model_id (seq 1 n) Hk
                (seq_positive 1 n Nat.lt_0_1) c t)
      as (c' & evs & Hrun & Hcalls & _).
    exists c', evs. rewrite length_seq in Hcalls. auto.
Qed.

Lemma converse_errors_never_abort_loop_witness :
  0 < 5 /\
  api_converse env_throttled 1 arn_demo
    (user_message (select_prompt 2)) inference_config
    = Raises (BotoError "ThrottlingException") /\
  exists c' evs,
    for_range env_throttled 3 5 arn_demo (seq 1 3) c0 [] = (Ok c', [] ++ evs) /\
    converse_calls evs = 3.
Proof.
  split; [lia |]. split; [reflexivity |].
  apply (converse_errors_never_abort_loop env_throttled 3 5). lia.
Defined.

(** ** Provisioning failures *)

(** C2. When the remote create-profile call raises, the error is printed,
    re-raised by the provisioner and escapes [main]: the run ends with that
    error after a single provisioning call (no retry, no second profile),
    without any converse call and without any line of the summary. *)
Theorem provisioning_failure_aborts_run (env : Env) (n k : nat) (e : exn) (t : trace) :
  has_create_inference_profile env = true ->
  provisioning_outcome env = Raises e ->
  main_with env n k t = (Raise e, t ++ abort_events env e) /\
  provisioning_calls (abort_events env e) = 1 /\
  converse_calls (abort_events env e) = 0 /\
  existsb is_summary_event (abort_events env e) = false.
Proof.
  intros Hhas Hout. split; [| repeat split].
  erewrite main_with_abort.
  - reflexivity.
  - rewrite (create_shared_profile_rejected env e) by assumption.
    unfold abort_events. flatten_trace. reflexivity.
Qed.

Lemma provisioning_failure_aborts_run_witness :
  has_create_inference_profile env_rejected = true /\
  provisioning_outcome env_rejected = Raises (BotoError "ServiceQuotaExceededException") /\
  main env_rejected [] =
    (Raise (BotoError "ServiceQuotaExceededException"),
     [] ++ abort_events env_rejected (BotoError "ServiceQuotaExceededException")).
Proof.
  split; [reflexivity |]. split; [reflexivity |].
  exact (proj1 (provisioning_failure_aborts_run env_rejected 50 5
                  (BotoError "ServiceQuotaExceededException") []
                  eq_refl eq_refl)).
Defined.

(** C8, as stated, fails: when provisioning is rejected the run prints no
    summary at all, so none that shows zero attempted iterations. *)
Lemma rejected_run_prints_no_summary :
  provisioning_outcome env_rejected = Raises (BotoError "ServiceQuotaExceededException") /\
  fst (main env_rejected []) = Raise (BotoError "ServiceQuotaExceededException") /\
  existsb is_summary_event (snd (main env_rejected [])) = false /\
  ~ (exists successes failures,
        summary_printed (snd (main env_rejected [])) successes failures /\
        successes + failures = 0).
Proof.
  split; [reflexivity |]. split; [reflexivity |]. split; [reflexivity |].
  intros (s & f & [Hs _] & _).
  vm_compute in Hs.
  repeat (destruct Hs as [Hs | Hs]; [discriminate Hs |]).
  exact Hs.
Qed.

(** C8 (amended). When the provisioning call raises, the run aborts at once
    with that error: no iteration is attempted (no iteration header, no
    converse call) and no run summary is produced -- not one line of the
    summary block, banners included, is printed. *)
Theorem provisioning_failure_no_summary (env : Env) (n k : nat) (e : exn) (t : trace) :
  has_create_inference_profile env = true ->
  provisioning_outcome env = Raises e ->
  exists evs,
    main_with env n k t = (Raise e, t ++ evs) /\
    evs = abort_events env e /\
    converse_calls evs = 0 /\
    (forall i now, ~ In (EvPrint (MsgIteration i now)) evs) /\
    (forall m, In (EvPrint m) evs -> is_summary_message m = false) /\
    ~ In (EvPrint MsgBanner) evs /\
    (forall successes failures, ~ summary_printed evs successes failures).
Proof.
  intros Hhas Hout. exists (abort_events env e).
  split; [| split; [reflexivity | split; [reflexivity |]]].
  - erewrite main_with_abort; [reflexivity |].
    rewrite (create_shared_profile_rejected env e) by assumption.
    unfold abort_events. flatten_trace. reflexivity.
  - unfold abort_events, provisioning_call. split; [| split; [| split]].
    + intros i now Hin.
      repeat (destruct Hin as [Hin | Hin]; [discriminate Hin |]). exact Hin.
    + intros m Hin.
      repeat (destruct Hin as [Hin | Hin];
              [try discriminate Hin; injection Hin as <-; reflexivity |]).
      contradiction.
    + intros Hin.
      repeat (destruct Hin as [Hin | Hin]; [discriminate Hin |]). exact Hin.
    + intros successes failures [Hin _].
      repeat (destruct Hin as [Hin | Hin]; [discriminate Hin |]). exact Hin.
Qed.

Lemma provisioning_failure_no_summary_witness :
  has_create_inference_profile env_rejected = true /\
  provisioning_outcome env_rejected = Raises (BotoError "ServiceQuotaExceededException") /\
  exists evs,
    main env_rejected [] =
      (Raise (BotoError "ServiceQuotaExceededException"), [] ++ evs) /\
    evs = abort_events env_rejected (BotoError "ServiceQuotaExceededException") /\
    converse_calls evs = 0 /\
    (forall i now, ~ In (EvPrint (MsgIteration i now)) evs) /\
    (forall m, In (EvPrint m) evs -> is_summary_message m = false) /\
    ~ In (EvPrint MsgBanner) evs /\
    (forall successes failures, ~ summary_printed evs successes failures).
Proof.
  split; [reflexivity |]. split; [reflexivity |].
  exact (provisioning_failure_no_summary env_rejected 50 5
           (BotoError "ServiceQuotaExceededException") [] eq_refl eq_refl).
Defined.

(** C10. When the provisioning call returns a response without the
    [inferenceProfileArn] field, the provisioner prints the ARN as
    ["Unknown"] and returns, and the subscript in [create_shared_profile]
    raises a [KeyError] that nothing catches: [main] ends with it before any
    iteration, as it does when the service rejects the profile. *)
Theorem missing_arn_aborts_run (env : Env) (n k : nat)
    (fields : list (string * value)) (t : trace) :
  has_create_inference_profile env = true ->
  provisioning_outcome env = Returns (VDict fields) ->
  lookup "inferenceProfileArn" fields = None ->
  main_with env n k t =
    (Raise (KeyError "inferenceProfileArn"), t ++ missing_arn_events env) /\
  converse_calls (missing_arn_events env) = 0 /\
  existsb is_summary_event (missing_arn_events env) = false.
Proof.
  intros Hhas Hout Hmissing. split; [| split; reflexivity].
  erewrite main_with_abort; [reflexivity |].
  rewrite (create_shared_profile_returned env fields) by assumption.
  rewrite Hmissing. unfold missing_arn_events. flatten_trace. reflexivity.
Qed.

Lemma missing_arn_aborts_run_witness :
  has_create_inference_profile env_no_arn = true /\
  provisioning_outcome env_no_arn = Returns (VDict [("status", VStr "ACTIVE")]) /\
  lookup "inferenceProfileArn" [("status", VStr "ACTIVE")] = None /\
  main env_no_arn [] =
    (Raise (KeyError "inferenceProfileArn"), [] ++ missing_arn_events env_no_arn).
Proof.
  split; [reflexivity |]. split; [reflexivity |]. split; [reflexivity |].
  exact (proj1 (missing_arn_aborts_run env_no_arn 50 5
                  [("status", VStr "ACTIVE")] [] eq_refl eq_refl eq_refl)).
Defined.

(** ** Counting *)

Lemma seq_split_at (j n : nat) :
  j <= n -> seq 1 n = seq 1 j ++ seq (1 + j) (n - j).
Proof.
  intros Hj. replace n with (j + (n - j)) at 1 by lia. apply seq_app.
Qed.

(** C3. In a run whose provisioning succeeded, every iteration moves exactly
    one of the two counters up by one; after the first [j] iterations
    ([j <= n]) the counters add up to [j], the loop goes on from there, and
    at the end of the loop they add up to [n], which is what the summary
    prints. *)
Theorem counters_sum_to_iterations (env : Env) (n k : nat)
    (t0 t : trace) (model_id : value) :
  0 < k ->
  create_shared_profile env (t0 ++ [EvPrint MsgStarting]) = (Ok model_id, t) ->
  (forall i c u, 0 < i ->
     exists c' u',
       loop_body env n k model_id i c u = (Ok c', u') /\
       (c' = count_success c \/ c' = count_failure c)) /\
  (forall j, j <= n ->
     exists cj tj,
       for_range env n k model_id (seq 1 j) c0 t = (Ok cj, tj) /\
       successful_runs cj + failed_runs cj = j /\
       for_range env n k model_id (seq 1 n) c0 t =
         for_range env n k model_id (seq (1 + j) (n - j)) cj tj) /\
  (exists cn tn,
     for_range env n k model_id (seq 1 n) c0 t = (Ok cn, tn) /\
     successful_runs cn + failed_runs cn = n /\
     (0 < n ->
      exists total_time,
        main_with env n k t0 = (Ok tt, tn ++ summary_events n cn total_time))).
Proof.
  intros Hk Hcreate. split; [| split].
  - intros i c u Hi. rewrite loop_body_run by assumption.
    eexists _, _. split; [reflexivity |].
    unfold iteration_counters, classify.
    destruct (py_truthy (iteration_response env (Z.of_nat i) model_id u)); auto.
  - intros j Hj.
    destruct (for_range_run env n k model_id (seq 1 j) Hk
                (seq_positive 1 j Nat.lt_0_1) c0 t)
      as (cj & evs & Hrun & _ & Hsum).
    exists cj, (t ++ evs). split; [exact Hrun |]. split.
    + rewrite Hsum, length_seq. reflexivity.
    + rewrite (seq_split_at j n Hj), for_range_app, Hrun. reflexivity.
  - destruct (for_range_run env n k model_id (seq 1 n) Hk
                (seq_positive 1 n Nat.lt_0_1) c0 t)
      as (cn & evs & Hrun & _ & Hsum).
    exists cn, (t ++ evs). split; [exact Hrun |]. split.
    + rewrite Hsum, length_seq. reflexivity.
    + intros Hn. eexists.
      apply (main_with_run env n k model_id cn t0 t (t ++ evs)); assumption.
Qed.

Lemma counters_sum_to_iterations_witness :
  0 < 5 /\
  create_shared_profile env_throttled ([] ++ [EvPrint MsgStarting]) =
    (Ok arn_demo,
     [EvPrint MsgStarting;
      EvPrint (MsgCreatingShared (shared_profile_name env_throttled));
      provisioning_call env_throttled;
      EvPrint (MsgCreatedProfile arn_demo)]) /\
  exists cn tn total_time,
    for_range env_throttled 4 5 arn_demo (seq 1 4) c0
      [EvPrint MsgStarting;
       EvPrint (MsgCreatingShared (shared_profile_name env_throttled));
       provisioning_call env_throttled;
       EvPrint (MsgCreatedProfile arn_demo)] = (Ok cn, tn) /\
    successful_runs cn + failed_runs cn = 4 /\
    main_with env_throttled 4 5 [] = (Ok tt, tn ++ summary_events 4 cn total_time).
Proof.
  split; [lia |]. split; [reflexivity |].
  destruct (counters_sum_to_iterations env_throttled 4 5 [] _ arn_demo
              (Nat.lt_0_succ 4) eq_refl)
    as (_ & _ & cn & tn & Hrun & Hsum & Hmain).
  destruct (Hmain (Nat.lt_0_succ 3)) as (total_time & Hsummary).
  exists cn, tn, total_time. auto.
Defined.

(** The scenario with four iterations of which the second is throttled:
    three successes, one failure. *)
Example four_iterations_one_throttled :
  fst (for_range env_throttled 4 5 arn_demo (seq 1 4) c0 []) =
  Ok {| successful_runs := 3; failed_runs := 1 |}.
Proof. reflexivity. Qed.

(** The scenario with four iterations that all answer. *)
Example four_iterations_all_answered :
  fst (for_range env_base 4 5 arn_demo (seq 1 4) c0 []) =
  Ok {| successful_runs := 4; failed_runs := 0 |}.
Proof. reflexivity. Qed.

(** ** Progress reports *)

Lemma converse_message_cases env k model_id messages :
  (exists e, snd (converse_outcome env k model_id messages) = MsgErrorConverse e) \/
  (exists v, snd (converse_outcome env k model_id messages) = MsgResponseText v).
Proof.
  unfold converse_outcome.
  destruct (api_converse env k model_id messages inference_config)
    as [response | e]; [| left; eexists; reflexivity].
  destruct (parse_converse_response response) as [parsed | e];
    [| left; eexists; reflexivity].
  destruct (py_slice50 parsed) as [truncated | e];
    [right | left]; eexists; reflexivity.
Qed.

Lemma progress_in_iteration env n k model_id a c t i m :
  In (EvPrint (MsgProgress i m)) (iteration_events env n k model_id a c t) <->
  i = a /\ m = n /\ a mod k = 0.
Proof.
  unfold iteration_events, run_test_events, report_events, pacing_events.
  rewrite !in_app_iff.
  destruct (converse_message_cases env (converse_calls t) model_id
              (user_message (select_prompt (Z.of_nat a))))
    as [[e' ->] | [v' ->]].
  all: destruct (Nat.eqb_spec (a mod k) 0) as [Hmod | Hmod];
    destruct (a <? n); simpl; split.
  all: try (intros (-> & -> & _); tauto).
  all: try (intros (_ & _ & Habs); contradiction).
  all: intros H;
    repeat match type of H with
      | _ \/ _ => destruct H as [H | H]
      end;
    try discriminate H; try contradiction.
  all: injection H as <- <-; auto.
Qed.

Lemma rate_in_iteration env n k model_id a c t s i q :
  In (EvPrint (MsgSuccessRate s i q)) (iteration_events env n k model_id a c t) <->
  i = a /\ a mod k = 0 /\
  s = successful_runs (iteration_counters env model_id a c t) /\
  q = rate_percent s a.
Proof.
  unfold iteration_events, run_test_events, report_events, pacing_events,
    rate_percent.
  rewrite !in_app_iff.
  destruct (converse_message_cases env (converse_calls t) model_id
              (user_message (select_prompt (Z.of_nat a))))
    as [[e' ->] | [v' ->]].
  all: destruct (Nat.eqb_spec (a mod k) 0) as [Hmod | Hmod];
    destruct (a <? n); simpl; split.
  all: try (intros (-> & _ & -> & ->); tauto).
  all: try (intros (_ & Habs & _); contradiction).
  all: intros H;
    repeat match type of H with
      | _ \/ _ => destruct H as [H | H]
      end;
    try discriminate H; try contradiction.
  all: injection H as <- <- <-; auto.
Qed.

Lemma for_range_single env n k model_id a c t :
  0 < k -> 0 < a ->
  for_range env n k model_id (seq a 1) c t =
  (Ok (iteration_counters env model_id a c t),
   t ++ iteration_events env n k model_id a c t).
Proof.
  intros Hk Ha. simpl seq. rewrite for_range_cons by assumption. reflexivity.
Qed.

(** Which reports the loop over [a, a+1, ..., a+len-1] prints. *)
Lemma loop_reports env n k model_id :
  0 < k ->
  forall len a c t, 0 < a ->
    exists c' evs,
      for_range env n k model_id (seq a len) c t = (Ok c', t ++ evs) /\
      (forall i m,
          In (EvPrint (MsgProgress i m)) evs <->
          m = n /\ a <= i < a + len /\ i mod k = 0) /\
      (forall s i q,
          In (EvPrint (MsgSuccessRate s i q)) evs <->
          a <= i < a + len /\ i mod k = 0 /\ q = rate_percent s i /\
          exists ci ti,
            for_range env n k model_id (seq a (S (i - a))) c t = (Ok ci, ti) /\
            successful_runs ci = s).
Proof.
  intros Hk. induction len as [| len IH]; intros a c t Ha.
  - exists c, []. simpl. rewrite app_nil_r. split; [reflexivity |].
    split; intros; split; try contradiction; intros; lia.
  - destruct (IH (S a) (iteration_counters env model_id a c t)
                (t ++ iteration_events env n k model_id a c t) (Nat.lt_0_succ a))
      as (c' & evs & Hrun & Hprogress & Hrate).
    exists c', (iteration_events env n k model_id a c t ++ evs).
    split; [| split].
    + simpl seq. rewrite for_range_cons by assumption.
      rewrite Hrun, app_assoc. reflexivity.
    + intros i m. rewrite in_app_iff, progress_in_iteration, Hprogress.
      split.
      * intros [(-> & -> & Hmod) | (-> & Hi & Hmod)]; repeat split; auto; lia.
      * intros (-> & Hi & Hmod).
        destruct (Nat.eq_dec i a) as [-> | Hne]; [left; auto |].
        right. repeat split; auto; lia.
    + intros s i q. rewrite in_app_iff, rate_in_iteration, Hrate.
      split.
      * intros [(-> & Hmod & -> & ->) | (Hi & Hmod & -> & ci & ti & Hci & Hs)].
        -- repeat split; auto; try lia.
           rewrite Nat.sub_diag. rewrite for_range_single by assumption.
           eauto.
        -- repeat split; auto; try lia.
           exists ci, ti. split; [| exact Hs].
           replace (S (i - a)) with (S (S (i - S a))) by lia.
           change (seq a (S (S (i - S a)))) with (a :: seq (S a) (S (i - S a))).
           rewrite for_range_cons by assumption. exact Hci.
      * intros (Hi & Hmod & -> & ci & ti & Hci & Hs).
        destruct (Nat.eq_dec i a) as [-> | Hne].
        -- left. rewrite Nat.sub_diag in Hci.
           rewrite for_range_single in Hci by assumption.
           injection Hci as <- _. auto.
        -- right. repeat split; auto; try lia.
           exists ci, ti. split; [| exact Hs].
           replace (S (i - a)) with (S (S (i - S a))) in Hci by lia.
           change (seq a (S (S (i - S a)))) with (a :: seq (S a) (S (i - S a)))
             in Hci.
           rewrite for_range_cons in Hci by assumption. exact Hci.
Qed.

(** C5. With report interval [k > 0], the loop over [1..n] prints a progress
    report for iteration [i] exactly when [1 <= i <= n] and [k] divides [i];
    the report of iteration [i] shows the number of successes counted after
    the first [i] iterations, over [i], and their ratio times 100. *)
Theorem progress_every_kth_iteration (env : Env) (n k : nat)
    (model_id : value) (t : trace) :
  0 < k ->
  exists c evs,
    for_range env n k model_id (seq 1 n) c0 t = (Ok c, t ++ evs) /\
    (forall i m,
        In (EvPrint (MsgProgress i m)) evs <->
        m = n /\ 1 <= i <= n /\ i mod k = 0) /\
    (forall s i q,
        In (EvPrint (MsgSuccessRate s i q)) evs <->
        1 <= i <= n /\ i mod k = 0 /\ q = rate_percent s i /\
        exists ci ti,
          for_range env n k model_id (seq 1 i) c0 t = (Ok ci, ti) /\
          successful_runs ci = s).
Proof.
  intros Hk.
  destruct (loop_reports env n k model_id Hk n 1 c0 t Nat.lt_0_1)
    as (c & evs & Hrun & Hprogress & Hrate).
  exists c, evs. split; [exact Hrun |]. split.
  - intros i m. rewrite Hprogress. intuition lia.
  - intros s i q. rewrite Hrate. split.
    + intros (Hi & Hmod & Hq & ci & ti & Hci & Hs).
      replace (S (i - 1)) with i in Hci by lia.
      repeat split; eauto; lia.
    + intros (Hi & Hmod & Hq & ci & ti & Hci & Hs).
      repeat split; auto; try lia.
      exists ci, ti. replace (S (i - 1)) with i by lia. auto.
Qed.

Lemma progress_every_kth_iteration_witness :
  0 < 2 /\
  exists c evs,
    for_range env_throttled 4 2 arn_demo (seq 1 4) c0 [] = (Ok c, [] ++ evs) /\
    (forall i m,
        In (EvPrint (MsgProgress i m)) evs <->
        m = 4 /\ 1 <= i <= 4 /\ i mod 2 = 0) /\
    (forall s i q,
        In (EvPrint (MsgSuccessRate s i q)) evs <->
        1 <= i <= 4 /\ i mod 2 = 0 /\ q = rate_percent s i /\
        exists ci ti,
          for_range env_throttled 4 2 arn_demo (seq 1 i) c0 [] = (Ok ci, ti) /\
          successful_runs ci = s).
Proof.
  split; [lia |].
  apply (progress_every_kth_iteration env_throttled 4 2 arn_demo []). lia.
Defined.

(** ** Pacing *)

(** C7. [run_test] sleeps 1 second after the converse call (and after what
    [converse] prints), as the last thing it does, whether the call answered
    or raised; after [run_test] and the progress report, the loop sleeps 2
    more seconds when [i < n] and does not sleep when [i] is the last index
    [n]. No other sleep happens in an iteration. *)
Theorem two_tier_pacing (env : Env) (n k : nat) (model_id : value)
    (i : nat) (c : counters) (t : trace) :
  0 < k -> 0 < i ->
  exists headers printed response report pacing c',
    run_test env (Z.of_nat i) model_id t =
      (Ok response,
       t ++ headers
         ++ [EvConverse model_id (user_message (select_prompt (Z.of_nat i)))
               inference_config;
             EvPrint printed;
             EvSleep 1]) /\
    loop_body env n k model_id i c t =
      (Ok c',
       t ++ (headers
             ++ [EvConverse model_id (user_message (select_prompt (Z.of_nat i)))
                   inference_config;
                 EvPrint printed;
                 EvSleep 1])
         ++ report ++ pacing) /\
    existsb is_sleep headers = false /\
    existsb is_converse headers = false /\
    existsb is_sleep report = false /\
    (i < n -> pacing = [EvSleep 2]) /\
    (n <= i -> pacing = []).
Proof.
  intros Hk Hi.
  exists [EvPrint MsgBanner;
          EvPrint (MsgIteration (Z.of_nat i)
                     (clock env (List.length (t ++ [EvPrint MsgBanner]))));
          EvPrint MsgBanner;
          EvPrint (MsgUsingProfile model_id)],
    (snd (converse_outcome env (converse_calls t) model_id
            (user_message (select_prompt (Z.of_nat i))))),
    (iteration_response env (Z.of_nat i) model_id t),
    (report_events n k i (iteration_counters env model_id i c t)),
    (pacing_events n i),
    (iteration_counters env model_id i c t).
  split; [| split; [| split; [| split; [| split; [| split]]]]].
  - rewrite run_test_run. reflexivity.
  - rewrite loop_body_run by assumption. reflexivity.
  - reflexivity.
  - reflexivity.
  - unfold report_events. destruct (i mod k =? 0); reflexivity.
  - intros Hlt. unfold pacing_events.
    apply Nat.ltb_lt in Hlt. rewrite Hlt. reflexivity.
  - intros Hge. unfold pacing_events.
    apply Nat.ltb_ge in Hge. rewrite Hge. reflexivity.
Qed.

Lemma two_tier_pacing_witness :
  0 < 5 /\ 0 < 2 /\
  exists headers printed response report pacing c',
    run_test env_throttled 2 arn_demo [] =
      (Ok response,
       [] ++ headers
          ++ [EvConverse arn_demo (user_message (select_prompt 2)) inference_config;
              EvPrint printed;
              EvSleep 1]) /\
    loop_body env_throttled 3 5 arn_demo 2 c0 [] =
      (Ok c',
       [] ++ (headers
              ++ [EvConverse arn_demo (user_message (select_prompt 2))
                    inference_config;
                  EvPrint printed;
                  EvSleep 1])
          ++ report ++ pacing) /\
    existsb is_sleep headers = false /\
    existsb is_converse headers = false /\
    existsb is_sleep report = false /\
    (2 < 3 -> pacing = [EvSleep 2]) /\
    (3 <= 2 -> pacing = []).
Proof.
  split; [lia |]. split; [lia |].
  apply (two_tier_pacing env_throttled 3 5 arn_demo 2 c0 []); lia.
Defined.

(** ** Classification of an iteration *)

(** The loop counts an iteration by the truth value of what [converse]
    returned. *)
Lemma classification_by_truth_value (env : Env) (n k : nat) (model_id : value)
    (i : nat) (c : counters) (t : trace) :
  0 < k -> 0 < i ->
  run_test env (Z.of_nat i) model_id t =
    (Ok (iteration_response env (Z.of_nat i) model_id t),
     t ++ run_test_events env (Z.of_nat i) model_id t) /\
  loop_body env n k model_id i c t =
    (Ok (if py_truthy (iteration_response env (Z.of_nat i) model_id t)
         then count_success c else count_failure c),
     t ++ iteration_events env n k model_id i c t).
Proof.
  intros Hk Hi. split; [apply run_test_run |].
  rewrite loop_body_run by assumption. reflexivity.
Qed.

(** When the service answers with non-empty dicts, as it does (an answer
    carries at least its metadata), [converse] returns either [None] or that
    non-empty dict. *)
Lemma response_none_or_answer (env : Env) (model_id : value) (i : Z) (t : trace) :
  (forall answer,
      api_converse env (converse_calls t) model_id
        (user_message (select_prompt i)) inference_config = Returns answer ->
      exists field fields, answer = VDict (field :: fields)) ->
  iteration_response env i model_id t = VNone \/
  exists field fields,
    iteration_response env i model_id t = VDict (field :: fields).
Proof.
  intros Hanswers. unfold iteration_response, converse_outcome.
  destruct (api_converse env (converse_calls t) model_id
              (user_message (select_prompt i)) inference_config)
    as [answer | e]; [| left; reflexivity].
  destruct (Hanswers answer eq_refl) as (field & fields & ->).
  destruct (parse_converse_response (VDict (field :: fields)))
    as [parsed | e]; [| left; reflexivity].
  destruct (py_slice50 parsed) as [truncated | e]; [right | left]; simpl; eauto.
Qed.

(** C9. With a service whose answers are non-empty dicts (every answer
    carries its metadata), an iteration is counted as a success exactly when
    [converse] returned something other than [None], and as a failure exactly
    when it returned [None]; what the extractor made of the response plays no
    part, so a response that parses only to the sentinel still counts as a
    success. *)
Theorem success_iff_response_not_none (env : Env) (n k : nat) (model_id : value)
    (i : nat) (c : counters) (t : trace) :
  0 < k -> 0 < i ->
  (forall answer,
      api_converse env (converse_calls t) model_id
        (user_message (select_prompt (Z.of_nat i))) inference_config
        = Returns answer ->
      exists field fields, answer = VDict (field :: fields)) ->
  exists response t1 c' t2,
    run_test env (Z.of_nat i) model_id t = (Ok response, t1) /\
    loop_body env n k model_id i c t = (Ok c', t2) /\
    (c' = count_success c <-> response <> VNone) /\
    (c' = count_failure c <-> response = VNone) /\
    (parse_converse_response response = Ok sentinel ->
     response <> VNone -> c' = count_success c).
Proof.
  intros Hk Hi Hanswers.
  destruct (classification_by_truth_value env n k model_id i c t Hk Hi)
    as [Hrun Hbody].
  assert (Hdistinct : count_success c <> count_failure c).
  { unfold count_success, count_failure. intros Heq.
    injection Heq as Hs _. lia. }
  eexists _, _, _, _. split; [exact Hrun |]. split; [exact Hbody |].
  destruct (response_none_or_answer env model_id (Z.of_nat i) t Hanswers)
    as [-> | (field & fields & ->)]; cbn [py_truthy].
  - split; [| split].
    + split; [intros Heq; symmetry in Heq; contradiction | intros H; contradiction].
    + split; reflexivity.
    + intros _ H. contradiction.
  - split; [| split].
    + split; [intros _; discriminate | reflexivity].
    + split; [intros Heq; contradiction | discriminate].
    + reflexivity.
Qed.

Lemma success_iff_response_not_none_witness :
  parse_converse_response (VDict [("ResponseMetadata", VDict [])]) = Ok sentinel /\
  fst (run_test env_no_text 1 arn_demo [])
    = Ok (VDict [("ResponseMetadata", VDict [])]) /\
  fst (loop_body env_no_text 50 5 arn_demo 1 c0 []) = Ok (count_success c0) /\
  fst (run_test env_throttled 2 arn_demo [EvConverse VNone VNone VNone]) = Ok VNone /\
  fst (loop_body env_throttled 50 5 arn_demo 2 c0 [EvConverse VNone VNone VNone])
    = Ok (count_failure c0) /\
  exists response t1 c' t2,
    run_test env_no_text 1 arn_demo [] = (Ok response, t1) /\
    loop_body env_no_text 50 5 arn_demo 1 c0 [] = (Ok c', t2) /\
    (c' = count_success c0 <-> response <> VNone) /\
    (c' = count_failure c0 <-> response = VNone) /\
    (parse_converse_response response = Ok sentinel ->
     response <> VNone -> c' = count_success c0).
Proof.
  split; [reflexivity |]. split; [reflexivity |]. split; [reflexivity |].
  split; [reflexivity |]. split; [reflexivity |].
  apply (success_iff_response_not_none env_no_text 50 5 arn_demo 1 c0 []).
  - lia.
  - lia.
  - intros answer Hanswer. injection Hanswer as <-. eauto.
Defined.

(** * Further properties of the script *)

(** ** Conversation client *)

Lemma substring_prefix_length (m : nat) (s : string) :
  String.length (substring 0 m s) <= m /\
  (String.length s <= m -> substring 0 m s = s).
Proof.
  revert s. induction m as [| m IH]; intros s.
  - destruct s; simpl; split; intros; try lia; try reflexivity.
  - destruct s as [| ch s]; simpl.
    + split; [lia | reflexivity].
    + destruct (IH s) as [Hlen Hall]. split; [lia |].
      intros Hs. rewrite Hall by lia. reflexivity.
Qed.

(** X1. A response the extractor cannot read, or whose text cannot be
    sliced, is handled like a remote error: although the remote call
    answered, [converse] prints the error and returns [None], and the
    iteration is counted as a failure. *)
Theorem unreadable_response_counts_as_failure (env : Env) (n k : nat)
    (model_id : value) (i : nat) (c : counters) (t : trace)
    (response : value) (e : exn) :
  0 < k -> 0 < i ->
  api_converse env (converse_calls t) model_id
    (user_message (select_prompt (Z.of_nat i))) inference_config
    = Returns response ->
  (parse_converse_response response = Raise e \/
   exists parsed,
     parse_converse_response response = Ok parsed /\
     py_slice50 parsed = Raise e) ->
  converse env model_id (user_message (select_prompt (Z.of_nat i))) t =
    (Ok VNone, t ++ [converse_request model_id i; EvPrint (MsgErrorConverse e)]) /\
  fst (loop_body env n k model_id i c t) = Ok (count_failure c).
Proof.
  intros Hk Hi Hanswer Hbad.
  assert (Hout : converse_outcome env (converse_calls t) model_id
                   (user_message (select_prompt (Z.of_nat i)))
                 = (VNone, MsgErrorConverse e)).
  { unfold converse_outcome. rewrite Hanswer.
    destruct Hbad as [-> | (parsed & -> & ->)]; reflexivity. }
  split.
  - rewrite converse_run, Hout. reflexivity.
  - rewrite loop_body_run by assumption.
    unfold iteration_counters, iteration_response. rewrite Hout. reflexivity.
Qed.

Lemma unreadable_response_counts_as_failure_witness :
  parse_converse_response response_numeric_text = Ok (VInt 5) /\
  py_slice50 (VInt 5) = Raise TypeError /\
  converse env_numeric_text arn_demo (user_message (select_prompt 1)) [] =
    (Ok VNone,
     [] ++ [converse_request arn_demo 1; EvPrint (MsgErrorConverse TypeError)]) /\
  fst (loop_body env_numeric_text 50 5 arn_demo 1 c0 []) = Ok (count_failure c0).
Proof.
  split; [reflexivity |]. split; [reflexivity |].
  apply (unreadable_response_counts_as_failure env_numeric_text 50 5 arn_demo 1
           c0 [] response_numeric_text TypeError).
  - lia.
  - lia.
  - reflexivity.
  - right. exists (VInt 5). split; reflexivity.
Defined.

Lemma take_code_points_bound (n : nat) (s : string) :
  code_points (take_code_points n s) <= n /\
  (code_points s <= n -> take_code_points n s = s) /\
  prefix (take_code_points n s) s = true.
Proof.
  revert n. induction s as [| ch s IH]; intros n.
  - simpl. split; [lia |]. split; [intros _; reflexivity | reflexivity].
  - cbn [take_code_points code_points].
    destruct (is_continuation ch) eqn:Hch.
    + destruct (IH n) as (Hlen & Hall & Hpre).
      cbn [code_points prefix]. rewrite Hch.
      split; [exact Hlen |]. split.
      * intros Hs. rewrite Hall by exact Hs. reflexivity.
      * destruct (ascii_dec ch ch) as [_ | Hne]; [exact Hpre | contradiction].
    + destruct n as [| n].
      * split; [simpl; lia |]. split; [intros Hs; lia | reflexivity].
      * destruct (IH n) as (Hlen & Hall & Hpre).
        cbn [code_points prefix]. rewrite Hch.
        split; [lia |]. split.
        -- intros Hs. rewrite Hall by lia. reflexivity.
        -- destruct (ascii_dec ch ch) as [_ | Hne]; [exact Hpre | contradiction].
Qed.

(** X2. When the remote call answers and the extractor finds a string,
    [converse] returns the raw response itself, not the text, and prints a
    preview that is the beginning of the text, of at most 50 characters
    (code points): the whole text when it has at most 50. *)
Theorem converse_returns_raw_response (env : Env) (model_id messages : value)
    (t : trace) (response : value) (text : string) :
  api_converse env (converse_calls t) model_id messages inference_config
    = Returns response ->
  parse_converse_response response = Ok (VStr text) ->
  exists preview,
    converse env model_id messages t =
      (Ok response,
       t ++ [EvConverse model_id messages inference_config;
             EvPrint (MsgResponseText (VStr preview))]) /\
    code_points preview <= 50 /\
    (code_points text <= 50 -> preview = text) /\
    prefix preview text = true.
Proof.
  intros Hanswer Hparse. exists (take_code_points 50 text).
  split; [| apply take_code_points_bound].
  rewrite converse_run. unfold converse_outcome.
  rewrite Hanswer, Hparse. reflexivity.
Qed.

Lemma converse_returns_raw_response_witness :
  code_points "déjà vu" = 7 /\
  String.length "déjà vu" = 9 /\
  exists preview,
    converse env_accented arn_demo (user_message (select_prompt 1)) [] =
      (Ok response_accented,
       [] ++ [EvConverse arn_demo (user_message (select_prompt 1)) inference_config;
              EvPrint (MsgResponseText (VStr preview))]) /\
    code_points preview <= 50 /\
    (code_points "déjà vu" <= 50 -> preview = "déjà vu") /\
    prefix preview "déjà vu" = true.
Proof.
  split; [reflexivity |]. split; [reflexivity |].
  apply (converse_returns_raw_response env_accented arn_demo
           (user_message (select_prompt 1)) [] response_accented "déjà vu");
    reflexivity.
Defined.

(** ** Response extractor *)

Lemma content_loop_first_text before fields text after :
  forallb without_text before = true ->
  lookup "text" fields = Some text ->
  content_loop (before ++ VDict fields :: after) = Ok (Some text).
Proof.
  intros Hbefore Htext. induction before as [| item before IH].
  - cbn [app content_loop py_in py_get rbind]. rewrite Htext. reflexivity.
  - apply andb_prop in Hbefore. destruct Hbefore as [Hitem Hbefore].
    destruct item as [| | | | | item]; try discriminate.
    unfold without_text in Hitem.
    cbn [app content_loop py_in py_get rbind].
    destruct (lookup "text" item); [discriminate |].
    cbn [rbind]. apply IH. exact Hbefore.
Qed.

(** X3. The extractor stops at the first content entry that has a [text]:
    the entries after it are never looked at, so they may be anything, even
    values on which the membership test would raise. *)
Theorem parse_stops_at_first_text
    (fields output message : list (string * value))
    (before after : list value) (entry : list (string * value)) (text : value) :
  lookup "output" fields = Some (VDict output) ->
  lookup "message" output = Some (VDict message) ->
  lookup "content" message = Some (VList (before ++ VDict entry :: after)) ->
  forallb without_text before = true ->
  lookup "text" entry = Some text ->
  parse_converse_response (VDict fields) = Ok text.
Proof.
  intros Houtput Hmessage Hcontent Hbefore Htext.
  unfold parse_converse_response.
  cbn [py_in py_getitem rbind]. rewrite Houtput. cbn [py_in py_getitem rbind].
  rewrite Hmessage. cbn [py_in py_getitem rbind].
  rewrite Hcontent. cbn [py_iter rbind].
  rewrite (content_loop_first_text before entry text after) by assumption.
  reflexivity.
Qed.

Lemma parse_stops_at_first_text_witness :
  parse_converse_response
    (VDict [("output",
             VDict [("message",
                     VDict [("content",
                             VList ([VDict [("image", VStr "png")]]
                                    ++ VDict [("text", VStr "first")]
                                    :: [VNone; VDict [("text", VStr "second")]]))])])])
  = Ok (VStr "first").
Proof.
  eapply (parse_stops_at_first_text _ _ _ [VDict [("image", VStr "png")]]
            [VNone; VDict [("text", VStr "second")]] [("text", VStr "first")]);
    reflexivity.
Defined.

(** ** Profile provisioner *)

(** X4. When the installed client has no [create_inference_profile] method,
    the provisioner raises before contacting the service: the run ends with
    the "please update boto3" error, and neither a provisioning call nor a
    converse call has been made. *)
Theorem missing_client_method_aborts_before_call (env : Env) (n k : nat) (t : trace) :
  has_create_inference_profile env = false ->
  exists evs,
    main_with env n k t = (Raise method_unavailable, t ++ evs) /\
    evs = [EvPrint MsgStarting;
           EvPrint (MsgCreatingShared (shared_profile_name env));
           EvPrint (MsgErrorCreating method_unavailable)] /\
    provisioning_calls evs = 0 /\
    converse_calls evs = 0.
Proof.
  intros Hhas. eexists. split; [| split; [reflexivity | split; reflexivity]].
  apply main_with_abort.
  unfold create_shared_profile, create_inference_profile. rewrite Hhas.
  run_script. change (negb false) with true. cbv beta iota.
  flatten_trace. reflexivity.
Qed.

Lemma missing_client_method_aborts_before_call_witness :
  has_create_inference_profile env_no_method = false /\
  exists evs,
    main env_no_method [] = (Raise method_unavailable, [] ++ evs) /\
    evs = [EvPrint MsgStarting;
           EvPrint (MsgCreatingShared (shared_profile_name env_no_method));
           EvPrint (MsgErrorCreating method_unavailable)] /\
    provisioning_calls evs = 0 /\
    converse_calls evs = 0.
Proof.
  split; [reflexivity |].
  exact (missing_client_method_aborts_before_call env_no_method 50 5 [] eq_refl).
Defined.

(** X5. When the creation call returns something that is not a dict, reading
    the ARN for the log line raises inside the provisioner's [try]: the error
    is printed and re-raised, and the run ends with it although the service
    has accepted the call. *)
Theorem non_dict_profile_response_aborts (env : Env) (n k : nat)
    (response : value) (t : trace) :
  has_create_inference_profile env = true ->
  provisioning_outcome env = Returns response ->
  is_dict response = false ->
  exists evs,
    main_with env n k t = (Raise (AttributeError "get"), t ++ evs) /\
    evs = [EvPrint MsgStarting;
           EvPrint (MsgCreatingShared (shared_profile_name env));
           provisioning_call env;
           EvPrint (MsgErrorCreating (AttributeError "get"))] /\
    provisioning_calls evs = 1 /\
    converse_calls evs = 0.
Proof.
  unfold provisioning_outcome. intros Hhas Hout Hshape.
  eexists. split; [| split; [reflexivity | split; reflexivity]].
  apply main_with_abort.
  unfold create_shared_profile, create_inference_profile,
    bedrock_create_inference_profile, provisioning_call.
  rewrite Hhas. run_script. rewrite Hout.
  change (negb true) with false. cbv beta iota.
  destruct response; try discriminate Hshape; simpl; flatten_trace; reflexivity.
Qed.

Lemma non_dict_profile_response_aborts_witness :
  has_create_inference_profile env_none_profile = true /\
  provisioning_outcome env_none_profile = Returns VNone /\
  is_dict VNone = false /\
  exists evs,
    main env_none_profile [] = (Raise (AttributeError "get"), [] ++ evs) /\
    evs = [EvPrint MsgStarting;
           EvPrint (MsgCreatingShared (shared_profile_name env_none_profile));
           provisioning_call env_none_profile;
           EvPrint (MsgErrorCreating (AttributeError "get"))] /\
    provisioning_calls evs = 1 /\
    converse_calls evs = 0.
Proof.
  split; [reflexivity |]. split; [reflexivity |]. split; [reflexivity |].
  exact (non_dict_profile_response_aborts env_none_profile 50 5 VNone []
           eq_refl eq_refl eq_refl).
Defined.

Lemma append_length (a b : string) :
  String.length (String.append a b) = String.length a + String.length b.
Proof. induction a as [| ch a IH]; simpl; [reflexivity | rewrite IH; reflexivity]. Qed.

Lemma prefix_append (a b : string) : prefix a (String.append a b) = true.
Proof.
  induction a as [| ch a IH]; simpl.
  - destruct b; reflexivity.
  - destruct (ascii_dec ch ch) as [_ | Hne]; [exact IH | contradiction].
Qed.

Lemma substring_full_length (m : nat) (s : string) :
  m <= String.length s -> String.length (substring 0 m s) = m.
Proof.
  revert s. induction m as [| m IH]; intros s Hlen.
  - destruct s; reflexivity.
  - destruct s as [| ch s]; simpl in *; [lia |].
    rewrite IH by lia. reflexivity.
Qed.

Lemma shared_profile_name_parts (env : Env) :
  8 <= String.length (uuid4_hex env) ->
  prefix "cost_demo_shared_profile_" (shared_profile_name env) = true /\
  String.length (shared_profile_name env) = 33 /\
  substring 25 8 (shared_profile_name env) = substring 0 8 (uuid4_hex env).
Proof.
  intros Hlen. unfold shared_profile_name. split; [| split].
  - apply prefix_append.
  - rewrite append_length, substring_full_length by assumption. reflexivity.
  - set (suffix := substring 0 8 (uuid4_hex env)).
    assert (Hsuffix : String.length suffix = 8)
      by (apply substring_full_length; assumption).
    simpl. clearbody suffix.
    destruct (substring_prefix_length 8 suffix) as [_ Hall].
    apply Hall. lia.
Qed.

Lemma create_shared_profile_not_a_dict env response t :
  has_create_inference_profile env = true ->
  provisioning_outcome env = Returns response ->
  is_dict response = false ->
  create_shared_profile env t =
  (Raise (AttributeError "get"),
   t ++ [EvPrint (MsgCreatingShared (shared_profile_name env));
         provisioning_call env;
         EvPrint (MsgErrorCreating (AttributeError "get"))]).
Proof.
  unfold provisioning_outcome, provisioning_call. intros Hhas Hout Hshape.
  unfold create_shared_profile, create_inference_profile,
    bedrock_create_inference_profile.
  rewrite Hhas. run_script. rewrite Hout.
  change (negb true) with false. cbv beta iota.
  destruct response; try discriminate Hshape; simpl; flatten_trace; reflexivity.
Qed.

(** X6. Whatever the service then does, [create_shared_profile] announces
    and sends exactly one creation request: its name is
    ["cost_demo_shared_profile_"] followed by the first 8 characters of the
    uuid's hex form (33 characters in all), its description is ["test"], it
    copies from the Nova Micro foundation model and carries the two tags
    [dept = Dev] and [project = cost-demo]. *)
Theorem shared_profile_request (env : Env) (t : trace) :
  8 <= String.length (uuid4_hex env) ->
  has_create_inference_profile env = true ->
  exists name outcome rest,
    create_shared_profile env t =
      (outcome,
       t ++ EvPrint (MsgCreatingShared name)
         :: EvCreateInferenceProfile name "test"
              (VDict [("copyFrom",
                       VStr "arn:aws:bedrock:us-east-1::foundation-model/amazon.nova-micro-v1:0")])
              (VList [VDict [("key", VStr "dept"); ("value", VStr "Dev")];
                      VDict [("key", VStr "project"); ("value", VStr "cost-demo")]])
         :: rest) /\
    filter is_provisioning rest = [] /\
    prefix "cost_demo_shared_profile_" name = true /\
    String.length name = 33 /\
    substring 25 8 name = substring 0 8 (uuid4_hex env).
Proof.
  intros Hlen Hhas. exists (shared_profile_name env).
  destruct (provisioning_outcome env) as [response | e] eqn:Hout.
  - destruct (is_dict response) eqn:Hshape.
    + destruct response as [| | | | | fields]; try discriminate Hshape.
      eexists _, _. split.
      * rewrite (create_shared_profile_returned env fields t Hhas Hout).
        reflexivity.
      * split; [reflexivity |]. apply shared_profile_name_parts. exact Hlen.
    + eexists _, _. split.
      * rewrite (create_shared_profile_not_a_dict env response t Hhas Hout Hshape).
        reflexivity.
      * split; [reflexivity |]. apply shared_profile_name_parts. exact Hlen.
  - eexists _, _. split.
    + rewrite (create_shared_profile_rejected env e t Hhas Hout). reflexivity.
    + split; [reflexivity |]. apply shared_profile_name_parts. exact Hlen.
Qed.

Lemma shared_profile_request_witness :
  8 <= String.length (uuid4_hex env_base) /\
  has_create_inference_profile env_base = true /\
  snd (create_shared_profile env_base []) =
    [EvPrint (MsgCreatingShared "cost_demo_shared_profile_01234567");
     EvCreateInferenceProfile "cost_demo_shared_profile_01234567" "test"
       (VDict [("copyFrom",
                VStr "arn:aws:bedrock:us-east-1::foundation-model/amazon.nova-micro-v1:0")])
       (VList [VDict [("key", VStr "dept"); ("value", VStr "Dev")];
               VDict [("key", VStr "project"); ("value", VStr "cost-demo")]]);
     EvPrint (MsgCreatedProfile arn_demo)] /\
  exists name outcome rest,
    create_shared_profile env_base [] =
      (outcome,
       [] ++ EvPrint (MsgCreatingShared name)
          :: EvCreateInferenceProfile name "test"
               (VDict [("copyFrom",
                        VStr "arn:aws:bedrock:us-east-1::foundation-model/amazon.nova-micro-v1:0")])
               (VList [VDict [("key", VStr "dept"); ("value", VStr "Dev")];
                       VDict [("key", VStr "project"); ("value", VStr "cost-demo")]])
          :: rest) /\
    filter is_provisioning rest = [] /\
    prefix "cost_demo_shared_profile_" name = true /\
    String.length name = 33 /\
    substring 25 8 name = substring 0 8 (uuid4_hex env_base).
Proof.
  split; [simpl; lia |]. split; [reflexivity |]. split; [reflexivity |].
  apply (shared_profile_request env_base []); [simpl; lia | reflexivity].
Defined.

(** ** The loop as a sequence of iteration blocks *)

Lemma loop_blocks env n k model_id :
  0 < k ->
  forall len a c t, 0 < a ->
    exists c' blocks,
      for_range env n k model_id (seq a len) c t = (Ok c', t ++ List.concat blocks) /\
      Forall2 (iteration_block env n k model_id) (seq a len) blocks.
Proof.
  intros Hk. induction len as [| len IH]; intros a c t Ha.
  - exists c, []. simpl. rewrite app_nil_r. split; [reflexivity | constructor].
  - destruct (IH (S a) (iteration_counters env model_id a c t)
                (t ++ iteration_events env n k model_id a c t) (Nat.lt_0_succ a))
      as (c' & blocks & Hrun & Hblocks).
    exists c', (iteration_events env n k model_id a c t :: blocks). split.
    + simpl seq. rewrite for_range_cons by assumption.
      rewrite Hrun, concat_cons, app_assoc. reflexivity.
    + simpl seq. constructor; [exists c, t; reflexivity | exact Hblocks].
Qed.

Lemma filter_blocks {I : Type} (R : I -> list event -> Prop)
    (keep : event -> bool) (expected : I -> list event) :
  (forall i b, R i b -> filter keep b = expected i) ->
  forall indices blocks,
    Forall2 R indices blocks ->
    filter keep (List.concat blocks) = flat_map expected indices.
Proof.
  intros Hblock indices blocks Hall.
  induction Hall as [| i b indices blocks Hib _ IH]; simpl.
  - reflexivity.
  - rewrite filter_app, IH, (Hblock i b Hib). reflexivity.
Qed.

Lemma slept_app (t u : trace) : slept (t ++ u) = slept t + slept u.
Proof.
  induction t as [| e t IH]; simpl; [reflexivity |].
  destruct e; rewrite IH; lia.
Qed.

Lemma slept_blocks {I : Type} (R : I -> list event -> Prop) (expected : I -> nat) :
  (forall i b, R i b -> slept b = expected i) ->
  forall indices blocks,
    Forall2 R indices blocks ->
    slept (List.concat blocks) = list_sum (map expected indices).
Proof.
  intros Hblock indices blocks Hall.
  induction Hall as [| i b indices blocks Hib _ IH]; simpl.
  - reflexivity.
  - rewrite slept_app, IH, (Hblock i b Hib). reflexivity.
Qed.

Lemma flat_map_single {A B : Type} (f : A -> B) (l : list A) :
  flat_map (fun x => [f x]) l = map f l.
Proof. induction l as [| x l IH]; simpl; [reflexivity | rewrite IH; reflexivity]. Qed.

Lemma flat_map_optional {A B : Type} (keep : A -> bool) (f : A -> B) (l : list A) :
  flat_map (fun x => if keep x then [f x] else []) l = map f (filter keep l).
Proof.
  induction l as [| x l IH]; simpl; [reflexivity |].
  destruct (keep x); simpl; rewrite IH; reflexivity.
Qed.

Lemma block_requests env n k model_id i b :
  iteration_block env n k model_id i b ->
  filter is_converse b = [converse_request model_id i].
Proof.
  intros (c & t & ->).
  unfold iteration_events, report_events, pacing_events, run_test_events.
  rewrite !filter_app.
  destruct (i mod k =? 0); destruct (i <? n); reflexivity.
Qed.

Lemma block_provisioning env n k model_id i b :
  iteration_block env n k model_id i b ->
  filter is_provisioning b = [].
Proof.
  intros (c & t & ->).
  unfold iteration_events, report_events, pacing_events, run_test_events.
  rewrite !filter_app.
  destruct (i mod k =? 0); destruct (i <? n); reflexivity.
Qed.

Lemma block_error_iteration env n k model_id i b :
  iteration_block env n k model_id i b ->
  filter is_error_iteration b = [].
Proof.
  intros (c & t & ->).
  unfold iteration_events, report_events, pacing_events, run_test_events.
  rewrite !filter_app.
  destruct (converse_message_cases env (converse_calls t) model_id
              (user_message (select_prompt (Z.of_nat i))))
    as [[e ->] | [v ->]];
    destruct (i mod k =? 0); destruct (i <? n); reflexivity.
Qed.

Lemma block_progress env n k model_id i b :
  iteration_block env n k model_id i b ->
  filter is_progress b =
  if i mod k =? 0 then [EvPrint (MsgProgress i n)] else [].
Proof.
  intros (c & t & ->).
  unfold iteration_events, report_events, pacing_events, run_test_events.
  rewrite !filter_app.
  destruct (converse_message_cases env (converse_calls t) model_id
              (user_message (select_prompt (Z.of_nat i))))
    as [[e ->] | [v ->]];
    destruct (i mod k =? 0); destruct (i <? n); reflexivity.
Qed.

Lemma block_slept env n k model_id i b :
  iteration_block env n k model_id i b ->
  slept b = 1 + (if i <? n then 2 else 0).
Proof.
  intros (c & t & ->).
  unfold iteration_events, report_events, pacing_events, run_test_events.
  rewrite !slept_app.
  destruct (i mod k =? 0); destruct (i <? n); reflexivity.
Qed.

Lemma filter_nil_blocks {I : Type} (R : I -> list event -> Prop)
    (keep : event -> bool) :
  (forall i b, R i b -> filter keep b = []) ->
  forall indices blocks,
    Forall2 R indices blocks -> filter keep (List.concat blocks) = [].
Proof.
  intros Hblock indices blocks Hall.
  induction Hall as [| i b indices blocks Hib _ IH]; simpl.
  - reflexivity.
  - rewrite filter_app, IH, (Hblock i b Hib). reflexivity.
Qed.

(** ** One request per iteration, one profile for all *)

(** X7. The converse requests of the loop over [1..n] are, in order, one per
    iteration: request number [i] goes to the shared profile with the prompt
    of index [i] and [maxTokens = 300]. Nothing is sent twice, whatever the
    outcomes, and the loop makes no provisioning call. *)
Theorem one_request_per_iteration (env : Env) (n k : nat) (model_id : value)
    (c : counters) (t : trace) :
  0 < k ->
  exists c' evs,
    for_range env n k model_id (seq 1 n) c t = (Ok c', t ++ evs) /\
    filter is_converse evs = map (converse_request model_id) (seq 1 n) /\
    provisioning_calls evs = 0.
Proof.
  intros Hk.
  destruct (loop_blocks env n k model_id Hk n 1 c t Nat.lt_0_1)
    as (c' & blocks & Hrun & Hblocks).
  exists c', (List.concat blocks). split; [exact Hrun |]. split.
  - rewrite (filter_blocks _ is_converse (fun i => [converse_request model_id i])
               (block_requests env n k model_id) _ _ Hblocks).
    apply flat_map_single.
  - unfold provisioning_calls.
    rewrite (filter_nil_blocks _ is_provisioning
               (block_provisioning env n k model_id) _ _ Hblocks).
    reflexivity.
Qed.

Lemma one_request_per_iteration_witness :
  0 < 5 /\
  exists c' evs,
    for_range env_throttled 3 5 arn_demo (seq 1 3) c0 [] = (Ok c', [] ++ evs) /\
    filter is_converse evs = map (converse_request arn_demo) (seq 1 3) /\
    provisioning_calls evs = 0.
Proof.
  split; [lia |].
  apply (one_request_per_iteration env_throttled 3 5 arn_demo c0 []). lia.
Defined.

(** ** Requested sleeping time *)

Lemma pacing_sum (n len a : nat) :
  list_sum (map (fun i => 1 + (if i <? n then 2 else 0)) (seq a len)) =
  len + 2 * Nat.min len (n - a).
Proof.
  revert a. induction len as [| len IH]; intros a; simpl seq; simpl map;
    simpl list_sum.
  - reflexivity.
  - rewrite IH. destruct (Nat.ltb_spec a n); lia.
Qed.

(** X8. The loop over [1..n] asks for [3 * n - 2] seconds of sleep in all:
    one second in each iteration and two more between consecutive
    iterations, whatever the outcomes of the calls. *)
Theorem loop_sleeps_3n_minus_2 (env : Env) (n k : nat) (model_id : value)
    (c : counters) (t : trace) :
  0 < k ->
  exists c' evs,
    for_range env n k model_id (seq 1 n) c t = (Ok c', t ++ evs) /\
    slept evs = 3 * n - 2.
Proof.
  intros Hk.
  destruct (loop_blocks env n k model_id Hk n 1 c t Nat.lt_0_1)
    as (c' & blocks & Hrun & Hblocks).
  exists c', (List.concat blocks). split; [exact Hrun |].
  rewrite (slept_blocks _ (fun i => 1 + (if i <? n then 2 else 0))
             (block_slept env n k model_id) _ _ Hblocks).
  rewrite pacing_sum. lia.
Qed.

Lemma loop_sleeps_3n_minus_2_witness :
  0 < 5 /\
  exists c' evs,
    for_range env_throttled 50 5 arn_demo (seq 1 50) c0 [] = (Ok c', [] ++ evs) /\
    slept evs = 148.
Proof.
  split; [lia |].
  apply (loop_sleeps_3n_minus_2 env_throttled 50 5 arn_demo c0 []). lia.
Defined.

(** ** Progress reports, in order *)

Lemma multiples_up_to (k n : nat) :
  0 < k ->
  List.length (filter (fun i => i mod k =? 0) (seq 1 n)) = n / k.
Proof.
  intros Hk. induction n as [| n IH].
  - simpl. symmetry. apply Nat.div_small. exact Hk.
  - rewrite seq_S, filter_app, length_app, IH. simpl filter.
    pose proof (Nat.div_mod_eq n k) as Hn.
    pose proof (Nat.div_mod_eq (S n) k) as HSn.
    pose proof (Nat.mod_upper_bound n k) as Hbn.
    pose proof (Nat.mod_upper_bound (S n) k) as HbSn.
    change (1 + n) with (S n).
    destruct (Nat.eqb_spec (S n mod k) 0) as [Hz | Hnz]; simpl List.length; nia.
Qed.

(** X9. The progress lines of the loop over [1..n] are exactly those of the
    multiples of [k] up to [n], each printed once and in increasing order:
    [n / k] reports in all. *)
Theorem progress_lines_in_order (env : Env) (n k : nat) (model_id : value)
    (c : counters) (t : trace) :
  0 < k ->
  exists c' evs,
    for_range env n k model_id (seq 1 n) c t = (Ok c', t ++ evs) /\
    filter is_progress evs =
      map (fun i => EvPrint (MsgProgress i n))
          (filter (fun i => i mod k =? 0) (seq 1 n)) /\
    List.length (filter is_progress evs) = n / k.
Proof.
  intros Hk.
  destruct (loop_blocks env n k model_id Hk n 1 c t Nat.lt_0_1)
    as (c' & blocks & Hrun & Hblocks).
  exists c', (List.concat blocks). split; [exact Hrun |].
  assert (Hlines : filter is_progress (List.concat blocks) =
                   map (fun i => EvPrint (MsgProgress i n))
                       (filter (fun i => i mod k =? 0) (seq 1 n))).
  { rewrite (filter_blocks _ is_progress
               (fun i => if i mod k =? 0 then [EvPrint (MsgProgress i n)] else [])
               (block_progress env n k model_id) _ _ Hblocks).
    apply (flat_map_optional (fun i => i mod k =? 0)
             (fun i => EvPrint (MsgProgress i n))). }
  split; [exact Hlines |].
  rewrite Hlines, length_map. apply multiples_up_to. exact Hk.
Qed.

Lemma progress_lines_in_order_witness :
  0 < 5 /\
  exists c' evs,
    for_range env_throttled 50 5 arn_demo (seq 1 50) c0 [] = (Ok c', [] ++ evs) /\
    filter is_progress evs =
      map (fun i => EvPrint (MsgProgress i 50))
          (filter (fun i => i mod 5 =? 0) (seq 1 50)) /\
    List.length (filter is_progress evs) = 50 / 5.
Proof.
  split; [lia |].
  apply (progress_lines_in_order env_throttled 50 5 arn_demo c0 []). lia.
Defined.

(** ** Where errors are reported *)

(** X10. The loop never prints the orchestrator's own "Error in iteration"
    line: [run_test] does not raise, because [converse] has already caught
    and printed whatever the remote call or the extractor raised. *)
Theorem iteration_handler_never_runs (env : Env) (n k : nat) (model_id : value)
    (c : counters) (t : trace) :
  0 < k ->
  (forall i u, exists response u', run_test env i model_id u = (Ok response, u')) /\
  exists c' evs,
    for_range env n k model_id (seq 1 n) c t = (Ok c', t ++ evs) /\
    filter is_error_iteration evs = [].
Proof.
  intros Hk. split.
  - intros i u. rewrite run_test_run. eauto.
  - destruct (loop_blocks env n k model_id Hk n 1 c t Nat.lt_0_1)
      as (c' & blocks & Hrun & Hblocks).
    exists c', (List.concat blocks). split; [exact Hrun |].
    apply (filter_nil_blocks _ is_error_iteration
             (block_error_iteration env n k model_id) _ _ Hblocks).
Qed.

Lemma iteration_handler_never_runs_witness :
  0 < 5 /\
  exists c' evs,
    for_range env_all_failing 50 5 arn_demo (seq 1 50) c0 [] = (Ok c', [] ++ evs) /\
    filter is_error_iteration evs = [].
Proof.
  split; [lia |].
  apply (iteration_handler_never_runs env_all_failing 50 5 arn_demo c0 []). lia.
Defined.

(** ** Reported rates *)

Lemma rate_percent_bounds (s i : nat) :
  0 < i -> s <= i ->
  (0 <= rate_percent s i)%Q /\ (rate_percent s i <= 100)%Q.
Proof.
  intros Hi Hs. unfold rate_percent, Qle, Qmult. simpl Qnum. simpl Qden.
  assert (Hpos : Z.pos (Pos.of_nat i) = Z.of_nat i).
  { rewrite <- positive_nat_Z, Nat2Pos.id by lia. reflexivity. }
  rewrite Pos2Z.inj_mul, Hpos. clear Hpos. split; lia.
Qed.

(** X11. Every running success rate the loop prints is a percentage: the
    number of successes shown does not exceed the iteration number, and the
    rate lies between 0 and 100. *)
Theorem reported_rates_are_percentages (env : Env) (n k : nat)
    (model_id : value) (t : trace) :
  0 < k ->
  exists c evs,
    for_range env n k model_id (seq 1 n) c0 t = (Ok c, t ++ evs) /\
    forall s i q,
      In (EvPrint (MsgSuccessRate s i q)) evs ->
      s <= i /\ (0 <= q)%Q /\ (q <= 100)%Q.
Proof.
  intros Hk.
  destruct (loop_reports env n k model_id Hk n 1 c0 t Nat.lt_0_1)
    as (c & evs & Hrun & _ & Hrate).
  exists c, evs. split; [exact Hrun |].
  intros s i q Hin. apply Hrate in Hin.
  destruct Hin as (Hi & _ & -> & ci & ti & Hci & Hs).
  destruct (for_range_run env n k model_id (seq 1 (S (i - 1))) Hk
              (seq_positive 1 (S (i - 1)) Nat.lt_0_1) c0 t)
    as (c' & evs' & Hrun' & _ & Hsum).
  rewrite Hrun' in Hci. injection Hci as <- _.
  rewrite length_seq in Hsum. simpl in Hsum.
  assert (Hle : s <= i) by lia.
  split; [exact Hle |]. apply rate_percent_bounds; lia.
Qed.

Lemma reported_rates_are_percentages_witness :
  0 < 5 /\
  exists c evs,
    for_range env_throttled 50 5 arn_demo (seq 1 50) c0 [] = (Ok c, [] ++ evs) /\
    forall s i q,
      In (EvPrint (MsgSuccessRate s i q)) evs ->
      s <= i /\ (0 <= q)%Q /\ (q <= 100)%Q.
Proof.
  split; [lia |].
  apply (reported_rates_are_percentages env_throttled 50 5 arn_demo []). lia.
Defined.

(** ** Runs in which every call fails, or every call answers *)

Lemma loop_all_failing env n k model_id :
  0 < k ->
  (forall j m messages config, exists e,
      api_converse env j m messages config = Raises e) ->
  forall len a c t, 0 < a ->
    exists t',
      for_range env n k model_id (seq a len) c t =
      (Ok {| successful_runs := successful_runs c;
             failed_runs := failed_runs c + len |}, t').
Proof.
  intros Hk Hfail. induction len as [| len IH]; intros a c t Ha.
  - exists t. simpl. unfold ret. destruct c as [s f]. simpl.
    rewrite Nat.add_0_r. reflexivity.
  - simpl seq. rewrite for_range_cons by assumption.
    assert (Hcount : iteration_counters env model_id a c t = count_failure c).
    { unfold iteration_counters, iteration_response, converse_outcome.
      destruct (Hfail (converse_calls t) model_id
                  (user_message (select_prompt (Z.of_nat a))) inference_config)
        as [e ->].
      reflexivity. }
    rewrite Hcount.
    destruct (IH (S a) (count_failure c)
                (t ++ iteration_events env n k model_id a c t) (Nat.lt_0_succ a))
      as (t' & Hrun).
    exists t'. rewrite Hrun. unfold count_failure. simpl.
    replace (failed_runs c + S len) with (failed_runs c + 1 + len) by lia.
    reflexivity.
Qed.

(** X12. When every converse call raises, the run still completes: [main]
    does not raise, and the summary shows 0 successful runs and [n] failed
    runs. *)
Theorem all_calls_failing_run_completes (env : Env) (n k : nat)
    (t0 t : trace) (model_id : value) :
  0 < k -> 0 < n ->
  create_shared_profile env (t0 ++ [EvPrint MsgStarting]) = (Ok model_id, t) ->
  (forall j m messages config, exists e,
      api_converse env j m messages config = Raises e) ->
  exists tn total_time,
    main_with env n k t0 =
    (Ok tt,
     tn ++ summary_events n
             {| successful_runs := 0; failed_runs := n |} total_time).
Proof.
  intros Hk Hn Hcreate Hfail.
  destruct (loop_all_failing env n k model_id Hk Hfail n 1 c0 t Nat.lt_0_1)
    as (tn & Hrun).
  exists tn. eexists.
  apply (main_with_run env n k model_id _ t0 t tn Hn Hcreate). exact Hrun.
Qed.

Lemma all_calls_failing_run_completes_witness :
  exists tn total_time,
    main env_all_failing [] =
    (Ok tt,
     tn ++ summary_events 50
             {| successful_runs := 0; failed_runs := 50 |} total_time).
Proof.
  eapply (all_calls_failing_run_completes env_all_failing 50 5 [] _ arn_demo).
  - lia.
  - lia.
  - reflexivity.
  - intros j m messages config. exists (BotoError "ReadTimeoutError"). reflexivity.
Defined.

Lemma loop_all_answering env n k model_id :
  0 < k ->
  (forall j m messages config, exists response text,
      api_converse env j m messages config = Returns response /\
      py_truthy response = true /\
      parse_converse_response response = Ok (VStr text)) ->
  forall len a c t, 0 < a ->
    exists t',
      for_range env n k model_id (seq a len) c t =
      (Ok {| successful_runs := successful_runs c + len;
             failed_runs := failed_runs c |}, t').
Proof.
  intros Hk Hanswer. induction len as [| len IH]; intros a c t Ha.
  - exists t. simpl. unfold ret. destruct c as [s f]. simpl.
    rewrite Nat.add_0_r. reflexivity.
  - simpl seq. rewrite for_range_cons by assumption.
    assert (Hcount : iteration_counters env model_id a c t = count_success c).
    { unfold iteration_counters, iteration_response, converse_outcome, classify.
      destruct (Hanswer (converse_calls t) model_id
                  (user_message (select_prompt (Z.of_nat a))) inference_config)
        as (response & text & -> & Htruthy & ->).
      simpl. rewrite Htruthy. reflexivity. }
    rewrite Hcount.
    destruct (IH (S a) (count_success c)
                (t ++ iteration_events env n k model_id a c t) (Nat.lt_0_succ a))
      as (t' & Hrun).
    exists t'. rewrite Hrun. unfold count_success. simpl.
    replace (successful_runs c + S len) with (successful_runs c + 1 + len) by lia.
    reflexivity.
Qed.

(** X13. When every converse call answers with a non-empty response in which
    the extractor finds a string, every iteration is a success: the summary
    shows [n] successful runs and 0 failed runs. *)
Theorem all_calls_answering_run_succeeds (env : Env) (n k : nat)
    (t0 t : trace) (model_id : value) :
  0 < k -> 0 < n ->
  create_shared_profile env (t0 ++ [EvPrint MsgStarting]) = (Ok model_id, t) ->
  (forall j m messages config, exists response text,
      api_converse env j m messages config = Returns response /\
      py_truthy response = true /\
      parse_converse_response response = Ok (VStr text)) ->
  exists tn total_time,
    main_with env n k t0 =
    (Ok tt,
     tn ++ summary_events n
             {| successful_runs := n; failed_runs := 0 |} total_time).
Proof.
  intros Hk Hn Hcreate Hanswer.
  destruct (loop_all_answering env n k model_id Hk Hanswer n 1 c0 t Nat.lt_0_1)
    as (tn & Hrun).
  exists tn. eexists.
  apply (main_with_run env n k model_id _ t0 t tn Hn Hcreate). exact Hrun.
Qed.

Lemma all_calls_answering_run_succeeds_witness :
  exists tn total_time,
    main env_base [] =
    (Ok tt,
     tn ++ summary_events 50
             {| successful_runs := 50; failed_runs := 0 |} total_time).
Proof.
  eapply (all_calls_answering_run_succeeds env_base 50 5 [] _ arn_demo).
  - lia.
  - lia.
  - reflexivity.
  - intros j m messages config. exists response_hello, "hello".
    split; [reflexivity |]. split; reflexivity.
Defined.

(** ** A whole run *)

(** X14. In a run whose provisioning call returns an ARN, the profile is
    created exactly once and then reused: [main] completes without raising,
    makes one provisioning call, and sends its [n] converse requests, in
    iteration order, to the ARN that call returned. *)
Theorem profile_created_once_and_reused (env : Env) (n k : nat)
    (fields : list (string * value)) (arn : value) (t : trace) :
  0 < k -> 0 < n ->
  has_create_inference_profile env = true ->
  provisioning_outcome env = Returns (VDict fields) ->
  lookup "inferenceProfileArn" fields = Some arn ->
  exists evs,
    main_with env n k t = (Ok tt, t ++ evs) /\
    provisioning_calls evs = 1 /\
    filter is_converse evs = map (converse_request arn) (seq 1 n).
Proof.
  intros Hk Hn Hhas Hout Harn.
  pose proof (create_shared_profile_returned env fields
                (t ++ [EvPrint MsgStarting]) Hhas Hout) as Hcreate.
  rewrite Harn in Hcreate.
  set (t1 := (t ++ [EvPrint MsgStarting]) ++
             [EvPrint (MsgCreatingShared (shared_profile_name env));
              provisioning_call env; EvPrint (MsgCreatedProfile arn)]) in Hcreate.
  destruct (loop_blocks env n k arn Hk n 1 c0 t1 Nat.lt_0_1)
    as (c & blocks & Hrun & Hblocks).
  pose proof (main_with_run env n k arn c t t1 _ Hn Hcreate Hrun) as Hmain.
  unfold t1 in Hmain.
  eexists. split; [| split].
  - rewrite Hmain. repeat rewrite <- app_assoc. reflexivity.
  - unfold provisioning_calls. simpl app. unfold provisioning_call.
    cbn [filter is_provisioning].
    rewrite filter_app.
    rewrite (filter_nil_blocks _ is_provisioning
               (block_provisioning env n k arn) _ _ Hblocks).
    reflexivity.
  - simpl app. unfold provisioning_call. cbn [filter is_converse].
    rewrite filter_app.
    rewrite (filter_blocks _ is_converse (fun i => [converse_request arn i])
               (block_requests env n k arn) _ _ Hblocks).
    rewrite flat_map_single. unfold summary_events. cbn [filter is_converse].
    apply app_nil_r.
Qed.

Lemma profile_created_once_and_reused_witness :
  exists evs,
    main env_throttled [] = (Ok tt, [] ++ evs) /\
    provisioning_calls evs = 1 /\
    filter is_converse evs = map (converse_request arn_demo) (seq 1 50).
Proof.
  apply (profile_created_once_and_reused env_throttled 50 5
           [("inferenceProfileArn", arn_demo)] arn_demo []);
    [lia | lia | reflexivity | reflexivity | reflexivity].
Defined.
